(** * doc2json-ai: the extraction core, embedded and verified

    A shallow embedding of [utils/data_extractor.py] (class
    [GenericDataExtractor]) and [utils/schema_utils.py] (class
    [DynamicModelBuilder]), followed by the properties proved of them.

    Conventions of the embedding:
    - a Python [str] is the list of its Unicode code points ([pystr]);
    - a JSON-like Python value (what [json.load] and [model_dump] produce) is
      a [json] tree; a [dict] is the association list of its items in
      insertion order (keys of a real dict are pairwise distinct);
    - code that may raise returns an [Outcome];
    - calls to [logger] have no effect on any returned value and are left out;
    - the tokenizer, the chat client and [json.dumps] belong to libraries:
      they are variables of the sections that use them. *)

From Stdlib Require Import String Ascii.
From Stdlib Require Import List ZArith NArith Bool Lia.
From Stdlib Require Import QArith.
Import ListNotations.
Close Scope Q_scope.

Set Implicit Arguments.
Set Warnings "-register-all".

(** * Part I. The embedding *)

(** ** Python strings *)

Definition pystr := list N.

(** The code points of an ASCII literal. *)
Definition py (s : string) : pystr :=
  List.map N_of_ascii (list_ascii_of_string s).

Definition pystr_eqb (a b : pystr) : bool :=
  if list_eq_dec N.eq_dec a b then true else false.

(** [str(n)] for a non-negative [int]. *)
Fixpoint uint_codes (d : Decimal.uint) : pystr :=
  match d with
  | Decimal.Nil => []
  | Decimal.D0 d => 48%N :: uint_codes d
  | Decimal.D1 d => 49%N :: uint_codes d
  | Decimal.D2 d => 50%N :: uint_codes d
  | Decimal.D3 d => 51%N :: uint_codes d
  | Decimal.D4 d => 52%N :: uint_codes d
  | Decimal.D5 d => 53%N :: uint_codes d
  | Decimal.D6 d => 54%N :: uint_codes d
  | Decimal.D7 d => 55%N :: uint_codes d
  | Decimal.D8 d => 56%N :: uint_codes d
  | Decimal.D9 d => 57%N :: uint_codes d
  end.

Definition str_of_nat (n : nat) : pystr := uint_codes (Nat.to_uint n).

(** The characters [str.strip()] removes: those for which [str.isspace]
    holds. *)
Definition is_whitespace (c : N) : bool :=
  (((9 <=? c) && (c <=? 13)) || ((28 <=? c) && (c <=? 32))
   || (c =? 133) || (c =? 160) || (c =? 5760)
   || ((8192 <=? c) && (c <=? 8202)) || (c =? 8232) || (c =? 8233)
   || (c =? 8239) || (c =? 8287) || (c =? 12288))%N.

Fixpoint lstrip (s : pystr) : pystr :=
  match s with
  | [] => []
  | c :: t => if is_whitespace c then lstrip t else s
  end.

Definition rstrip (s : pystr) : pystr := rev (lstrip (rev s)).

(** [s.strip()] *)
Definition py_strip (s : pystr) : pystr := rstrip (lstrip s).

(** [l[start:stop]] with Python's treatment of negative and out-of-range
    indices. *)
Definition py_slice (A : Type) (l : list A) (start stop : Z) : list A :=
  let n := Z.of_nat (length l) in
  let clip i := if (i <? 0)%Z then Z.max (i + n) 0 else Z.min i n in
  let lo := clip start in
  let hi := clip stop in
  firstn (Z.to_nat (hi - lo)) (skipn (Z.to_nat lo) l).

(** ** JSON-like Python values *)

Inductive json : Type :=
| JNull                                   (* None *)
| JBool (b : bool)
| JInt (z : Z)
| JFloat (bits : N)                       (* a float, by its binary64 pattern *)
| JStr (s : pystr)
| JList (items : list json)
| JDict (items : list (pystr * json)).

Section json_induction.
Variable P : json -> Prop.
Hypothesis Hnull : P JNull.
Hypothesis Hbool : forall b, P (JBool b).
Hypothesis Hint : forall z, P (JInt z).
Hypothesis Hfloat : forall f, P (JFloat f).
Hypothesis Hstr : forall s, P (JStr s).
Hypothesis Hlist : forall l, Forall P l -> P (JList l).
Hypothesis Hdict : forall d, Forall (fun kv => P (snd kv)) d -> P (JDict d).

Fixpoint json_nested_ind (x : json) : P x :=
  match x with
  | JNull => Hnull
  | JBool b => Hbool b
  | JInt z => Hint z
  | JFloat f => Hfloat f
  | JStr s => Hstr s
  | JList l =>
      Hlist ((fix all (l : list json) : Forall P l :=
                match l with
                | [] => Forall_nil _
                | y :: t => Forall_cons y (json_nested_ind y) (all t)
                end) l)
  | JDict d =>
      Hdict ((fix all (d : list (pystr * json))
                : Forall (fun kv => P (snd kv)) d :=
                match d with
                | [] => Forall_nil _
                | kv :: t =>
                    Forall_cons kv (json_nested_ind (snd kv)) (all t)
                end) d)
  end.
End json_induction.

(** Truth value of a Python object, as [if x:] and [not x] test it. *)
Definition truthy (x : json) : bool :=
  match x with
  | JNull => false
  | JBool b => b
  | JInt z => negb (z =? 0)%Z
  | JFloat f => negb ((f =? 0) || (f =? 2 ^ 63))%N      (* 0.0 and -0.0 *)
  | JStr s => match s with [] => false | _ => true end
  | JList l => match l with [] => false | _ => true end
  | JDict d => match d with [] => false | _ => true end
  end.

(** ** Exceptions *)

(** What a piece of Python code comes to: a value, or an exception [e], kept
    as [str(e)]. *)
Inductive Outcome (A : Type) : Type :=
| Returned (a : A)
| Raised (e : pystr).
Arguments Raised {A} e.

(** ** Dict access *)

Definition type_name (x : json) : pystr :=
  match x with
  | JNull => py "NoneType"
  | JBool _ => py "bool"
  | JInt _ => py "int"
  | JFloat _ => py "float"
  | JStr _ => py "str"
  | JList _ => py "list"
  | JDict _ => py "dict"
  end.

(** The message of the [AttributeError] for [x.attr]. *)
Definition no_attribute (x : json) (attr : pystr) : pystr :=
  py "'" ++ type_name x ++ py "' object has no attribute '" ++ attr ++ py "'".

Fixpoint assoc (key : pystr) (d : list (pystr * json)) : option json :=
  match d with
  | [] => None
  | kv :: t => if pystr_eqb (fst kv) key then Some (snd kv) else assoc key t
  end.

(** [x.get(key, default)] *)
Definition dict_get (x : json) (key : pystr) (default : json)
  : Outcome json :=
  match x with
  | JDict d =>
      Returned (match assoc key d with Some v => v | None => default end)
  | _ => Raised (no_attribute x (py "get"))
  end.

(** [x.items()] *)
Definition dict_items (x : json) : Outcome (list (pystr * json)) :=
  match x with
  | JDict d => Returned d
  | _ => Raised (no_attribute x (py "items"))
  end.

(** [x == s] for a string literal [s] *)
Definition eq_str (x : json) (s : pystr) : bool :=
  match x with
  | JStr t => pystr_eqb t s
  | _ => false
  end.

(** [s.capitalize()] for a string [s] of ASCII characters: the first
    character in upper case, the others in lower case. *)
Definition ascii_upper (c : N) : N :=
  if ((97 <=? c) && (c <=? 122))%N then (c - 32)%N else c.

Definition ascii_lower (c : N) : N :=
  if ((65 <=? c) && (c <=? 90))%N then (c + 32)%N else c.

Definition ascii_capitalize (s : pystr) : pystr :=
  match s with
  | [] => []
  | c :: t => ascii_upper c :: List.map ascii_lower t
  end.

(** * GenericDataExtractor *)

Module GenericDataExtractor.

(** ** sanitize_data *)

(** [s.replace(old, '')] for a one-character [old]. *)
Definition str_remove (old : N) (s : pystr) : pystr :=
  filter (fun c => negb (c =? old)%N) s.

(** A regular-expression character class [[a-b...]], as its ranges. *)
Definition char_class := list (N * N).

Definition in_class (cls : char_class) (c : N) : bool :=
  existsb (fun r => (fst r <=? c)%N && (c <=? snd r)%N) cls.

(** [re.sub(r'[cls]', '', s)]: every character of the class is dropped. *)
Definition re_sub_class (cls : char_class) (s : pystr) : pystr :=
  filter (fun c => negb (in_class cls c)) s.

(** [[\x01-\x08\x0B\x0C\x0E-\x1F\x7F]] *)
Definition control_class : char_class :=
  [(1, 8); (11, 11); (12, 12); (14, 31); (127, 127)]%N.

Definition sanitize_str (data : pystr) : pystr :=
  let sanitized := str_remove 0%N data in
  let sanitized := re_sub_class control_class sanitized in
  sanitized.

Fixpoint sanitize_data (data : json) : json :=
  match data with
  | JNull => JNull
  | JStr s => JStr (sanitize_str s)
  | JDict d =>
      JDict (List.map (fun kv => (fst kv, sanitize_data (snd kv))) d)
  | JList l => JList (List.map sanitize_data l)
  | _ => data
  end.

(** ** The instance and its collaborators *)

(** The dict returned by [extract_structured] and [process_file]; [data] is
    [None] when the dict has no ["data"] key. *)
Record Result : Type :=
  { status : pystr; data : option json; message : pystr }.

(** What the [try] block of [extract_structured] sees of its model call:
    an exception, or the [refusal] and [parsed] attributes of
    [completion.choices[0].message]; [parsed], when not [None], is given by
    its [model_dump()]. *)
Inductive Response : Type :=
| Raises (e : pystr)
| Returns (refusal : option pystr) (parsed : option (list (pystr * json))).

(** A model call: its system and user messages. *)
Definition Call : Type := pystr * pystr.

Section Extractor.
Variable token : Type.
(** [self.tokenizer.encode] and [self.tokenizer.decode], taken to return
    on every argument *)
Variable encode : pystr -> list token.
Variable decode : list token -> pystr.
(** [self.max_tokens] and [self.token_overlap] *)
Variables max_tokens token_overlap : Z.
(** [json.dumps(_, indent=2)] *)
Variable json_dumps : json -> pystr.
(** [client n system user]: what the [n]-th call (counted from 0) of
    [self.client.chat.completions.parse], with these system and user
    messages, [self.model] and [self.response_model], leads to inside the
    [try] block of [extract_structured]. *)
Variable client : nat -> pystr -> pystr -> Response.

(** ** chunk_text *)

Definition count_tokens (text : pystr) : Z :=
  Z.of_nat (length (encode text)).

(** The [while start_idx < total_tokens] loop. One unit of [fuel] pays for
    one evaluation of the loop test; [None] means the fuel ran out. *)
Fixpoint chunk_loop (fuel : nat) (tokens : list token) (total_tokens : Z)
         (chunks : list pystr) (start_idx : Z) : option (list pystr) :=
  match fuel with
  | O => None
  | S fuel =>
      if (start_idx <? total_tokens)%Z then
        let end_idx := Z.min (start_idx + max_tokens) total_tokens in
        let chunks := chunks ++ [decode (py_slice tokens start_idx end_idx)] in
        if (end_idx =? total_tokens)%Z then Some chunks
        else chunk_loop fuel tokens total_tokens chunks
                        (end_idx - token_overlap)
      else Some chunks
  end.

Definition chunk_text (fuel : nat) (text : pystr) : option (list pystr) :=
  let tokens := encode text in
  let total_tokens := Z.of_nat (length tokens) in
  if (max_tokens >=? total_tokens)%Z then Some [text]
  else chunk_loop fuel tokens total_tokens [] 0%Z.

(** ** extract_structured and process_file *)

Definition system_prompt (previous_data : json) : pystr :=
  let system_prompt :=
    py "You are a specialized data extraction agent. Extract all required information from the provided text." in
  if truthy previous_data then
    system_prompt ++ [10; 10]%N ++ py "Previous data (merge and update):"
      ++ [10]%N ++ json_dumps previous_data
  else system_prompt.

(** The dict [extract_structured] returns when its model call is the
    [n]-th one. *)
Definition extract_result (n : nat) (text : pystr) (previous_data : json)
  : Result :=
  match client n (system_prompt previous_data) text with
  | Raises e =>
      {| status := py "failed"; data := None; message := e |}
  | Returns refusal parsed =>
      match refusal with
      | Some (c :: r) =>
          {| status := py "failed"; data := None;
             message := py "Refusal: " ++ c :: r |}
      | _ =>
          match parsed with
          | Some dump =>
              {| status := py "success";
                 data := Some (sanitize_data (JDict dump));
                 message := py "Extraction successful" |}
          | None =>
              {| status := py "failed"; data := None;
                 message := py "Failed to parse response" |}
          end
      end
  end.

(** [extract_structured], threading the list of model calls made so
    far. *)
Definition extract_structured (calls : list Call) (text : pystr)
           (previous_data : json) : Result * list Call :=
  (extract_result (length calls) text previous_data,
   calls ++ [(system_prompt previous_data, text)]).

(** The [for idx, chunk in enumerate(chunks, 1)] loop of [process_file]
    and the [return] after it. *)
Fixpoint process_chunks (calls : list Call) (chunks : list pystr)
         (idx num_chunks : nat) (accumulated : json)
  : Result * list Call :=
  match chunks with
  | [] =>
      ({| status := py "success"; data := Some accumulated;
          message := py "All " ++ str_of_nat num_chunks
                        ++ py " chunks processed" |}, calls)
  | chunk :: rest =>
      let chunk_tokens := count_tokens chunk in
      let (result, calls) := extract_structured calls chunk accumulated in
      if pystr_eqb (status result) (py "success") then
        match data result with
        | Some d => process_chunks calls rest (S idx) num_chunks d
        | None =>
            (* result["data"] raises KeyError, caught by the handler *)
            ({| status := py "failed"; data := None;
                message := py "'data'" |}, calls)
        end
      else if truthy accumulated then
        ({| status := py "failed"; data := Some accumulated;
            message := py "Partial failure at chunk " ++ str_of_nat idx
                          ++ py "/" ++ str_of_nat num_chunks ++ py ": "
                          ++ message result |}, calls)
      else (result, calls)
  end.

(** [process_file]. [extracted] is the outcome of
    [asyncio.to_thread(self.extract_text, file_path)]; the result comes
    with the list of model calls made; [None] means the chunking loop ran
    out of fuel. *)
Definition process_file (fuel : nat) (extracted : Outcome pystr)
  : option (Result * list Call) :=
  match extracted with
  | Raised e =>
      Some ({| status := py "failed"; data := None; message := e |}, [])
  | Returned text =>
      match py_strip text with
      | [] =>
          Some ({| status := py "failed"; data := None;
                   message := py "No text content found" |}, [])
      | _ :: _ =>
          let text_length := length text in
          let total_tokens := count_tokens text in
          match chunk_text fuel text with
          | None => None
          | Some chunks =>
              let num_chunks := length chunks in
              let accumulated := JNull in
              Some (process_chunks [] chunks 1 num_chunks accumulated)
          end
      end
  end.

(** ** Vocabulary of the properties *)

(** The same loop, recording the window [(start_idx, end_idx)] of every
    iteration instead of the decoded text. *)
Fixpoint window_loop (fuel : nat) (total_tokens : Z) (start_idx : Z)
  : option (list (Z * Z)) :=
  match fuel with
  | O => None
  | S fuel =>
      if (start_idx <? total_tokens)%Z then
        let end_idx := Z.min (start_idx + max_tokens) total_tokens in
        if (end_idx =? total_tokens)%Z then Some [(start_idx, end_idx)]
        else option_map (cons (start_idx, end_idx))
               (window_loop fuel total_tokens (end_idx - token_overlap))
      else Some []
  end.

Definition window_text (tokens : list token) (w : Z * Z) : pystr :=
  decode (py_slice tokens (fst w) (snd w)).

(** [tiling T s ws]: [ws] are the windows the loop produces from
    [start_idx = s] on a sequence of [T] tokens. *)
Inductive tiling (T : Z) : Z -> list (Z * Z) -> Prop :=
| tiling_last s :
    (s < T)%Z -> (T <= s + max_tokens)%Z -> tiling T s [(s, T)]
| tiling_step s ws :
    (s + max_tokens < T)%Z ->
    tiling T (s + max_tokens - token_overlap) ws ->
    tiling T s ((s, s + max_tokens)%Z :: ws).

(** The accumulated data when chunk [k] (counted from 0) is reached, the
    chunks before it having returned the data [ds], starting from
    [acc]. *)
Definition acc_from (acc : json) (ds : list json) (k : nat) : json :=
  match k with
  | O => acc
  | S j => nth j ds JNull
  end.

(** The result of the model call for chunk [k] (counted from 0) when the
    chunks before it returned the data [ds]. *)
Definition chunk_result (chunks : list pystr) (ds : list json) (k : nat)
  : Result :=
  extract_result k (nth k chunks []) (acc_from JNull ds k).

End Extractor.

(** The characters the specification lists as removed: NUL, 0x01-0x08, 0x0B,
    0x0C, 0x0E-0x1F and 0x7F. *)
Definition removed_char (c : N) : bool :=
  ((c =? 0) || ((1 <=? c) && (c <=? 8)) || (c =? 11) || (c =? 12)
   || ((14 <=? c) && (c <=? 31)) || (c =? 127))%N.

(** [cleaned s s']: [s'] holds no removed character and is [s] with exactly
    the removed characters taken out, the others in their original order. *)
Definition cleaned (s s' : pystr) : Prop :=
  Forall (fun c => removed_char c = false) s'
  /\ s' = filter (fun c => negb (removed_char c)) s.

(** [leafwise R x y]: [y] has the structure of [x] (same constructors, same
    dict keys in the same order, same list lengths and order, same
    non-string scalars) and the string leaves are related by [R]. *)
Inductive leafwise (R : pystr -> pystr -> Prop) : json -> json -> Prop :=
| lw_null : leafwise R JNull JNull
| lw_bool b : leafwise R (JBool b) (JBool b)
| lw_int z : leafwise R (JInt z) (JInt z)
| lw_float f : leafwise R (JFloat f) (JFloat f)
| lw_str s s' : R s s' -> leafwise R (JStr s) (JStr s')
| lw_list l l' : Forall2 (leafwise R) l l' -> leafwise R (JList l) (JList l')
| lw_dict d d' :
    Forall2 (fun kv kv' => fst kv = fst kv' /\ leafwise R (snd kv) (snd kv'))
            d d' ->
    leafwise R (JDict d) (JDict d').

(** ** A small instance *)

(** A tokenizer with one token per code point. *)
Definition char_encode (text : pystr) : list N := text.
Definition char_decode (tokens : list N) : pystr := tokens.

(** A serializer stub for the runs below, none of which depends on the text
    of the system prompt. *)
Definition no_dumps (_ : json) : pystr := [].

(** A model whose first answer parses to a dump with one string field and
    whose later calls raise. *)
Definition title_then_timeout (n : nat) (_ _ : pystr) : Response :=
  match n with
  | O => Returns None (Some [(py "title", JStr [65; 0; 66]%N)])
  | S _ => Raises (py "Request timed out.")
  end.

(** A model that always answers with the same parsed dump. *)
Definition title_always (_ : nat) (_ _ : pystr) : Response :=
  Returns None (Some [(py "title", JStr (py "AB"))]).

(** A model whose first answer parses to the empty dump (the response model
    has no field) and which refuses afterwards. *)
Definition empty_then_refusal (n : nat) (_ _ : pystr) : Response :=
  match n with
  | O => Returns None (Some [])
  | S _ => Returns (Some (py "no")) None
  end.

(** ** The claim on partial failure, as the specification words it *)

(** C1 as the specification states it: no condition on the data of chunk
    [i-1]. *)
Definition partial_failure_claim : Prop :=
  forall (token : Type) (encode : pystr -> list token)
         (decode : list token -> pystr) (max_tokens token_overlap : Z)
         (json_dumps : json -> pystr)
         (client : nat -> pystr -> pystr -> Response)
         (fuel : nat) (text : pystr) (chunks : list pystr) (i : nat)
         (ds : list json),
    py_strip text <> [] ->
    chunk_text encode decode max_tokens token_overlap fuel text
    = Some chunks ->
    2 <= i <= length chunks ->
    length ds = i - 1 ->
    (forall k, k < i - 1 ->
       status (chunk_result json_dumps client chunks ds k) = py "success"
       /\ data (chunk_result json_dumps client chunks ds k)
          = Some (nth k ds JNull)) ->
    status (chunk_result json_dumps client chunks ds (i - 1))
    <> py "success" ->
    exists calls,
      process_file encode decode max_tokens token_overlap json_dumps client
                   fuel (Returned text)
      = Some ({| status := py "failed";
                 data := Some (nth (i - 2) ds JNull);
                 message :=
                   py "Partial failure at chunk " ++ str_of_nat i ++ py "/"
                     ++ str_of_nat (length chunks) ++ py ": "
                     ++ message (chunk_result json_dumps client chunks ds
                                              (i - 1)) |}, calls).

End GenericDataExtractor.

(** * DynamicModelBuilder *)

Module DynamicModelBuilder.

(** ** The compiled types *)

(** First argument of [Field]: [...] (the field is required) or a default
    value. *)
Inductive FieldDefault : Type :=
| Ellipsis
| DefaultValue (v : json).

Record FieldInfo : Type := Field
  { default : FieldDefault; description : json }.

(** The values of [extra] in a [ConfigDict]. *)
Inductive ExtraValues : Type := allow | ignore | forbid.

Record ConfigDict : Type := { extra : ExtraValues }.

(** The types [_resolve_python_type] returns: [str], [int], [float],
    [bool], [Any], [List[item]], [Dict[key, value]], and a model class,
    given by its name, its [model_config] and its [model_fields]. *)
Inductive PyType : Type :=
| Str
| Int
| Float
| Bool
| Any
| List_ (item : PyType)
| Dict_ (key value : PyType)
| Model (name : pystr) (config : ConfigDict)
        (fields : list (pystr * (PyType * FieldInfo))).

(** ** Sequencing of code that may raise *)

Definition bind (A B : Type) (o : Outcome A) (k : A -> Outcome B)
  : Outcome B :=
  match o with
  | Returned a => k a
  | Raised e => Raised e
  end.

Notation "x <- o ;; k" := (bind o (fun x => k))
  (at level 61, o at next level, right associativity).

(** A [for] loop that collects one item per element, in order, and stops
    at the first exception. *)
Fixpoint for_each (A B : Type) (f : A -> Outcome B) (l : list A)
  : Outcome (list B) :=
  match l with
  | [] => Returned []
  | x :: t => y <- f x ;; ys <- for_each f t ;; Returned (y :: ys)
  end.

(** ** _resolve_python_type *)

Section Compiler.
(** [str.capitalize] *)
Variable capitalize : pystr -> pystr.
(** What the call [create_model(name, __config__=config, **fields)] of
    pydantic comes to: the class it returns or the exception raised. *)
Variable create_model :
  pystr -> ConfigDict -> list (pystr * (PyType * FieldInfo)) ->
  Outcome PyType.

(** The [mapping] of base types. *)
Definition mapping : list (pystr * PyType) :=
  [(py "string", Str); (py "integer", Int); (py "number", Float);
   (py "boolean", Bool)].

(** [mapping.get(json_type, Any)]: a list or a dict cannot be hashed; a key
    that is no string equals none of the keys. *)
Definition mapping_get (json_type : json) : Outcome PyType :=
  match json_type with
  | JList _ => Raised (py "unhashable type: 'list'")
  | JDict _ => Raised (py "unhashable type: 'dict'")
  | JStr s =>
      Returned
        (match find (fun kv => pystr_eqb (fst kv) s) mapping with
         | Some kv => snd kv
         | None => Any
         end)
  | _ => Returned Any
  end.

(** The body of [_resolve_python_type], with [rec] for the recursive calls
    [cls._resolve_python_type]. *)
Definition resolve_body (rec : json -> pystr -> Outcome PyType)
           (field_info : json) (model_name_hint : pystr) : Outcome PyType :=
  json_type <- dict_get field_info (py "type") (JStr (py "string")) ;;
  if eq_str json_type (py "array") then
    items <- dict_get field_info (py "items") (JDict []) ;;
    if negb (truthy items) then Returned (List_ Str)
    else
      inner_type <- rec items (model_name_hint ++ py "Item") ;;
      Returned (List_ inner_type)
  else if eq_str json_type (py "object") then
    nested_properties <- dict_get field_info (py "properties") (JDict []) ;;
    if negb (truthy nested_properties) then Returned (Dict_ Str Any)
    else
      props <- dict_items nested_properties ;;
      nested_fields <-
        for_each
          (fun p =>
             let n_name := fst p in
             let n_info := snd p in
             n_type <- rec n_info
                         (model_name_hint ++ py "_" ++ capitalize n_name) ;;
             n_desc <- dict_get n_info (py "description") (JStr []) ;;
             Returned (n_name, (n_type, Field Ellipsis n_desc)))
          props ;;
      create_model model_name_hint {| extra := forbid |} nested_fields
  else mapping_get json_type.

(** The recursion nested at most [n] deep. The value at [0] is never
    reached from [_resolve_python_type] (see [_resolve_python_type_eq]). *)
Fixpoint resolve_within (n : nat) (field_info : json)
         (model_name_hint : pystr) : Outcome PyType :=
  match n with
  | O => Raised (py "RecursionError")
  | S n => resolve_body (resolve_within n) field_info model_name_hint
  end.

(** Nesting depth of a value. *)
Fixpoint json_depth (x : json) : nat :=
  match x with
  | JList l => S (fold_right (fun y n => Nat.max (json_depth y) n) 0 l)
  | JDict d =>
      S (fold_right (fun kv n => Nat.max (json_depth (snd kv)) n) 0 d)
  | _ => 0
  end.

Definition _resolve_python_type (field_info : json)
           (model_name_hint : pystr) : Outcome PyType :=
  resolve_within (S (json_depth field_info)) field_info model_name_hint.

(** ** build_model_from_schema *)

(** [build_model_from_schema], from the point where [schema] has been read
    by [json.load]; locating and opening the file is left out. *)
Definition build_model_from_schema (schema : json) (model_name : pystr)
  : Outcome PyType :=
  properties <- dict_get schema (py "properties") (JDict []) ;;
  props <- dict_items properties ;;
  fields <-
    for_each
      (fun p =>
         let field_name := fst p in
         let field_info := snd p in
         field_type <- _resolve_python_type field_info
                         (capitalize field_name) ;;
         description <- dict_get field_info (py "description") (JStr []) ;;
         Returned (field_name, (field_type, Field Ellipsis description)))
      props ;;
  create_model model_name {| extra := forbid |} fields.

(** ** Vocabulary of the properties *)

(** The type names [_resolve_python_type] knows. *)
Definition recognised_types : list pystr :=
  [py "string"; py "integer"; py "number"; py "boolean"; py "object";
   py "array"].

Definition recognised (json_type : json) : bool :=
  match json_type with
  | JStr s => existsb (pystr_eqb s) recognised_types
  | _ => false
  end.

(** The values that can be a dict key: all but lists and dicts. *)
Definition hashable (x : json) : bool :=
  match x with
  | JList _ | JDict _ => false
  | _ => true
  end.

(** [subnode n t]: [n] is [t] or occurs in it, at any depth. *)
Inductive subnode : PyType -> PyType -> Prop :=
| subnode_here t : subnode t t
| subnode_item n t : subnode n t -> subnode n (List_ t)
| subnode_key n k v : subnode n k -> subnode n (Dict_ k v)
| subnode_value n k v : subnode n v -> subnode n (Dict_ k v)
| subnode_field n name config fields f :
    In f fields -> subnode n (fst (snd f)) ->
    subnode n (Model name config fields).

(** The nodes whose values are JSON objects: model classes and dicts. *)
Definition object_node (t : PyType) : bool :=
  match t with
  | Model _ _ _ | Dict_ _ _ => true
  | _ => false
  end.

(** The node admits no property beyond the declared ones. *)
Definition closed (t : PyType) : bool :=
  match t with
  | Model _ config _ =>
      match extra config with forbid => true | _ => false end
  | _ => false
  end.

Definition required (f : pystr * (PyType * FieldInfo)) : bool :=
  match default (snd (snd f)) with
  | Ellipsis => true
  | DefaultValue _ => false
  end.

(** Every declared field of the node is required. *)
Definition all_required (t : PyType) : bool :=
  match t with
  | Model _ _ fields => forallb required fields
  | _ => true
  end.

(** ** Small schemas *)

(** An object with one required-listed string, an object without
    properties, an array without items, a field without type, a field of
    an unknown type and a nested object with an empty required list. *)
Definition contract_schema : json :=
  JDict
    [(py "type", JStr (py "object"));
     (py "required", JList [JStr (py "title")]);
     (py "properties",
      JDict
        [(py "title",
          JDict [(py "type", JStr (py "string"));
                 (py "description", JStr (py "Title"))]);
         (py "metadata", JDict [(py "type", JStr (py "object"))]);
         (py "tags", JDict [(py "type", JStr (py "array"))]);
         (py "notes", JDict []);
         (py "signed", JDict [(py "type", JStr (py "date"))]);
         (py "party",
          JDict
            [(py "type", JStr (py "object"));
             (py "required", JList []);
             (py "properties",
              JDict [(py "name", JDict [(py "type", JStr (py "string"))])])])
        ])].

Definition contract_model : PyType :=
  Model (py "ContractModel") {| extra := forbid |}
    [(py "title", (Str, Field Ellipsis (JStr (py "Title"))));
     (py "metadata", (Dict_ Str Any, Field Ellipsis (JStr [])));
     (py "tags", (List_ Str, Field Ellipsis (JStr [])));
     (py "notes", (Str, Field Ellipsis (JStr [])));
     (py "signed", (Any, Field Ellipsis (JStr [])));
     (py "party",
      (Model (py "Party") {| extra := forbid |}
         [(py "name", (Str, Field Ellipsis (JStr [])))],
       Field Ellipsis (JStr [])))].

(** ** The claims on strictness and on unknown types, as the
    specification words them *)

(** C2 as the specification states it: every object node is closed. *)
Definition closed_objects_claim : Prop :=
  forall (schema : json) (model_name : pystr) (T : PyType),
    build_model_from_schema schema model_name = Returned T ->
    forall node, subnode node T -> object_node node = true ->
                 closed node = true /\ all_required node = true.

(** C3 as the specification states it: [Any] also when [type] is absent,
    and whatever the unrecognised value is. *)
Definition unknown_type_claim : Prop :=
  forall (d : list (pystr * json)) (hint : pystr),
    match assoc (py "type") d with
    | Some json_type => recognised json_type = false
    | None => True
    end ->
    _resolve_python_type (JDict d) hint = Returned Any.

(** ** What is assumed of [create_model] *)

(** The class [create_model] returns has the name and the configuration
    it was given, and each of its fields is one of the definitions it was
    given, with that type and that [Field]. *)
Definition create_model_sound : Prop :=
  forall name config fields T,
    create_model name config fields = Returned T ->
    exists model_fields,
      T = Model name config model_fields
      /\ forall f, In f model_fields -> In f fields.

(** [create_model] returns whenever the names of the fields it is given
    all satisfy [accepted]. *)
Definition create_model_accepts (accepted : pystr -> bool) : Prop :=
  forall name config fields,
    forallb accepted (List.map fst fields) = true ->
    exists T, create_model name config fields = Returned T.

End Compiler.

(** ** A [create_model] to run the compiler on *)

Definition ascii_letter (c : N) : bool :=
  (((65 <=? c) && (c <=? 90)) || ((97 <=? c) && (c <=? 122)))%N.

(** The field names made of ASCII letters only. *)
Definition ascii_letters (name : pystr) : bool := forallb ascii_letter name.

(** The class with the definitions given as its fields, when every field
    name is made of ASCII letters; names of another kind, some of which
    pydantic refuses, drops or takes for a keyword of its own, are outside
    this sample. *)
Definition sample_create_model (name : pystr) (config : ConfigDict)
           (fields : list (pystr * (PyType * FieldInfo))) : Outcome PyType :=
  if forallb ascii_letters (List.map fst fields)
  then Returned (Model name config fields)
  else Raised (py "field name outside the sample").

End DynamicModelBuilder.

(** * GenericDataExtractor: text extraction *)

(** The methods of [GenericDataExtractor] that pull the text out of a
    file. What the libraries read from the file is given: the paragraphs
    and tables of a Word document, the pages of a PDF, the decoded text of
    a text file. *)
Module TextExtraction.

Import DynamicModelBuilder.

(** [sep.join(parts)] *)
Fixpoint str_join (sep : pystr) (parts : list pystr) : pystr :=
  match parts with
  | [] => []
  | p :: rest =>
      match rest with
      | [] => p
      | _ :: _ => p ++ sep ++ str_join sep rest
      end
  end.

(** A [docx.Document]: the [text] of its paragraphs, and for each table
    its rows, for each row the [text] of its cells. *)
Record Document : Type :=
  { paragraphs : list pystr; tables : list (list (list pystr)) }.

Definition _extract_from_docx (doc : Document) : pystr :=
  let parts :=
    filter (fun p => truthy (JStr (py_strip p))) (paragraphs doc) in
  let parts :=
    parts
    ++ flat_map
         (fun table =>
            List.map (fun row => str_join (py " | ") (List.map py_strip row))
                     table)
         (tables doc) in
  str_join [10%N] parts.

(** What [read_text(encoding='utf-8')] comes to. *)
Inductive Utf8Read : Type :=
| Utf8Text (text : pystr)
| Utf8DecodeError
| Utf8OtherError (e : pystr).

(** [_extract_from_txt]; [latin1] is what [read_text(encoding='latin-1')]
    comes to. *)
Definition _extract_from_txt (utf8 : Utf8Read) (latin1 : Outcome pystr)
  : Outcome pystr :=
  match utf8 with
  | Utf8Text text => Returned text
  | Utf8DecodeError => latin1
  | Utf8OtherError e => Raised e
  end.

(** A page of a PDF: what [page.get_text()] returns, and what rendering
    the page and passing it to [pytesseract.image_to_string] comes to. *)
Record Page : Type :=
  { get_text : pystr; image_to_string : Outcome pystr }.

(** [x < y] on numbers *)
Definition Qlt_bool (x y : Q) : bool := negb (Qle_bool y x).

Section Pdf.
(** The float nearest to a rational: [total_chars / page_count] is
    [fl] of the exact quotient. *)
Variable fl : Q -> Q.
(** What is installed: [fitz_installed] tells that [import fitz] succeeds,
    [ocr_installed] that [import pytesseract] and [from PIL import Image]
    do ([io] belongs to the standard library). *)
Variables fitz_installed ocr_installed : bool.

(** The [try] block at the top of the module imports [fitz],
    [pytesseract], [Image] and [io] one after the other; when an import
    fails, the [except ImportError] branch sets all four names to [None].
    Each name is given by its truth value. *)
Definition imported : bool := fitz_installed && ocr_installed.
Definition fitz : bool := imported.
Definition pytesseract : bool := imported.
Definition Image : bool := imported.
Definition io : bool := imported.

Definition _extract_scanned_pdf (doc : list Page) : Outcome pystr :=
  if negb pytesseract || negb Image || negb io then Returned []
  else
    ocr_parts <- for_each image_to_string doc ;;
    Returned (str_join [10%N; 10%N] ocr_parts).

(** [total_chars], summed page by page *)
Definition total_chars (parts : list pystr) : Z :=
  fold_left (fun total text => (total + Z.of_nat (length (py_strip text)))%Z)
            parts 0%Z.

Definition avg_chars (total : Z) (page_count : nat) : Q :=
  match page_count with
  | O => 0%Q
  | S _ => fl (Qmake total (Pos.of_nat page_count))
  end.

(** [_extract_from_pdf]; [opened] is what [fitz.open(file_path)] comes
    to. *)
Definition _extract_from_pdf (scan_density_threshold : Z)
           (opened : Outcome (list Page)) : Outcome pystr :=
  if negb fitz then Raised (py "PyMuPDF (fitz) is not installed.")
  else
    doc <- opened ;;
    let parts := List.map get_text doc in
    let page_count := length doc in
    let avg := avg_chars (total_chars parts) page_count in
    if Qlt_bool avg (inject_Z scan_density_threshold) then
      _extract_scanned_pdf doc
    else Returned (str_join [10%N] parts).

(** A file, by what each way of reading it comes to; [suffix] is
    [Path(file_path).suffix.lower()]. *)
Record File : Type :=
  { suffix : pystr;
    as_docx : Outcome Document;
    as_pdf : Outcome (list Page);
    as_utf8 : Utf8Read;
    as_latin1 : Outcome pystr }.

Definition extract_text (scan_density_threshold : Z) (file : File)
  : Outcome pystr :=
  if pystr_eqb (suffix file) (py ".docx") then
    doc <- as_docx file ;; Returned (_extract_from_docx doc)
  else if pystr_eqb (suffix file) (py ".pdf") then
    _extract_from_pdf scan_density_threshold (as_pdf file)
  else if pystr_eqb (suffix file) (py ".txt") then
    _extract_from_txt (as_utf8 file) (as_latin1 file)
  else Raised (py "Unsupported format: " ++ suffix file).

End Pdf.

(** ** Small files *)

(** Two pages with a short text layer and an OCR that would read more. *)
Definition two_pages : list Page :=
  [{| get_text := py "abc "; image_to_string := Returned (py "scan 1") |};
   {| get_text := py " de"; image_to_string := Returned (py "scan 2") |}].

(** A Word document with two blank paragraphs and no table. *)
Definition blank_document : Document :=
  {| paragraphs := [[]; [32; 10]%N]; tables := [] |}.

Definition file_of (suffix : pystr) (doc : Document) (pages : list Page)
  : File :=
  {| suffix := suffix; as_docx := Returned doc; as_pdf := Returned pages;
     as_utf8 := Utf8DecodeError; as_latin1 := Returned [] |}.

End TextExtraction.

(** * main.py: the tracker *)

(** [calculate_crc32], [update_tracker] and [process_background] of
    [main.py]. The database is left out: [update_tracker] is given by the
    statement it passes to [db_client.execute_non_query], whose failures it
    only logs. *)
Module Main.

Import GenericDataExtractor.

Definition STATUS_SUCCESS : pystr := py "success".
Definition STATUS_FAILED : pystr := py "failed".
Definition STATUS_INPROGRESS : pystr := py "inprogress".

(** [calculate_crc32]; [crc] is what [zlib.crc32(content)] returns. *)
Definition calculate_crc32 (crc : Z) : Z := Z.land crc 4294967295.

(** A statement parameter: a Python value or [datetime.utcnow()]. *)
Inductive SqlParam : Type :=
| PValue (v : json)
| PNow.

Section Tracker.
(** [DB_SCHEMA] and [json.dumps] *)
Variable DB_SCHEMA : pystr.
Variable json_dumps : json -> pystr.

(** The safety truncation of the message. *)
Definition truncate_message (key : pystr) (value : json) : json :=
  match value with
  | JStr text =>
      if pystr_eqb key (py "message") && (2000 <? length text)%nat
      then JStr (firstn 1997 text ++ py "...")
      else value
  | _ => value
  end.

(** What is appended to [params] for a value. *)
Definition param_of (value : json) : SqlParam :=
  match value with
  | JDict _ | JList _ => PValue (JStr (json_dumps value))
  | _ => PValue value
  end.

(** The [for key, value in kwargs.items()] loop, on [update_fields],
    [params] and [idx]. *)
Fixpoint tracker_loop (kwargs : list (pystr * json))
         (update_fields : list pystr) (params : list SqlParam) (idx : nat)
  : list pystr * list SqlParam * nat :=
  match kwargs with
  | [] => (update_fields, params, idx)
  | (key, value) :: rest =>
      match value with
      | JNull => tracker_loop rest update_fields params idx
      | _ =>
          let value := truncate_message key value in
          let update_fields :=
            update_fields ++ [key ++ py " = $" ++ str_of_nat idx] in
          let params := params ++ [param_of value] in
          tracker_loop rest update_fields params (S idx)
      end
  end.

(** [update_tracker]: the query and the parameters it executes, or [None]
    when [db_client] is not set. *)
Definition update_tracker (db_client : bool) (request_id status : pystr)
           (kwargs : list (pystr * json))
  : option (pystr * list SqlParam) :=
  if negb db_client then None
  else
    let update_fields := [py "status = $1"; py "updated_at = $2"] in
    let params := [PValue (JStr status); PNow] in
    let idx := 3 in
    match tracker_loop kwargs update_fields params idx with
    | (update_fields, params, idx) =>
        let params := params ++ [PValue (JStr request_id)] in
        let query :=
          py "UPDATE " ++ DB_SCHEMA ++ py ".extraction_tracker SET "
             ++ TextExtraction.str_join (py ", ") update_fields
             ++ py " WHERE request_id = $" ++ str_of_nat idx in
        Some (query, params)
    end.

(** [result.get("data")] and [result.get("message")] *)
Definition get_data (result : Result) : json :=
  match data result with
  | Some d => d
  | None => JNull
  end.

(** [process_background], by the calls of [update_tracker] it makes, each
    with its status and keyword arguments; [extractor] tells that the
    extractor is set, [result] is what [extractor.process_file(file_path)]
    comes to. Removing the temporary file is left out. *)
Definition process_background (extractor : bool) (result : Outcome Result)
  : list (pystr * list (pystr * json)) :=
  if negb extractor then
    [(STATUS_FAILED,
      [(py "message",
        JStr (py "System configuration error: Extractor not initialized"))])]
  else
    (STATUS_INPROGRESS, [(py "message", JStr (py "Processing document"))])
    :: match result with
       | Returned result =>
           if pystr_eqb (status result) (py "success") then
             [(STATUS_SUCCESS,
               [(py "extracted_data", get_data result);
                (py "message", JStr (message result))])]
           else
             [(STATUS_FAILED,
               [(py "extracted_data", get_data result);
                (py "message", JStr (message result));
                (py "errors",
                 JDict [(py "error", JStr (message result))])])]
       | Raised e =>
           [(STATUS_FAILED,
             [(py "message", JStr (py "System error"));
              (py "errors", JDict [(py "detail", JStr e)])])]
       end.

End Tracker.

(** ** The upload endpoint *)

Definition STATUS_INITIATED : pystr := py "initiated".
Definition TEMP_FOLDER : pystr := py "temp_uploads".

(** What is raised inside [extract_data]: an [HTTPException], or another
    exception [e], kept as [str(e)]. *)
Inductive Raisable : Type :=
| HTTPException (status_code : nat) (detail : pystr)
| Exception (text : pystr).

(** What the endpoint does to the outside, in order. *)
Inductive Effect : Type :=
| Query (query : pystr) (params : list json)
| WriteFile (file_path : pystr) (content : list N)
| PutObject (bucket key : pystr) (body : list N)
| AddTask (request_id file_path : pystr).

(** What the endpoint comes to: a [JSONResponse], a returned dict (sent
    with the status 202 of the route), or an [HTTPException]. *)
Inductive Reply : Type :=
| JSONResponse (content : json) (status_code : nat)
| Dict (content : json)
| Raises (status_code : nat) (detail : pystr).

Inductive Try (A : Type) : Type :=
| Ok (a : A)
| Fail (e : Raisable).
Arguments Fail {A} e.

(** Code that may raise and that adds to the effects so far. *)
Definition Action (A : Type) : Type := list Effect -> Try A * list Effect.

Definition done {A : Type} (a : A) : Action A := fun log => (Ok a, log).

Definition raise {A : Type} (e : Raisable) : Action A :=
  fun log => (Fail e, log).

Definition and_then {A B : Type} (m : Action A) (k : A -> Action B)
  : Action B :=
  fun log =>
    match m log with
    | (Ok a, log) => k a log
    | (Fail e, log) => (Fail e, log)
    end.

Notation "x <~ m ;; k" := (and_then m (fun x => k))
  (at level 61, m at next level, right associativity).

(** A call to the outside and what it came to. *)
Definition call {A : Type} (effect : Effect) (outcome : Outcome A)
  : Action A :=
  fun log =>
    (match outcome with
     | Returned a => Ok a
     | Raised e => Fail (Exception e)
     end, log ++ [effect]).

(** [d[key]], with the [KeyError] of a missing key *)
Definition getitem (d : list (pystr * json)) (key : pystr) : Action json :=
  match assoc key d with
  | Some v => done v
  | None => raise (Exception (py "'" ++ key ++ py "'"))
  end.

(** [rows[0]] *)
Definition first_row {A : Type} (rows : list A) : Action A :=
  match rows with
  | row :: _ => done row
  | [] => raise (Exception (py "list index out of range"))
  end.

Section Upload.
Variable DB_SCHEMA APPLICATION_ID S3_BUCKET_NAME S3_KEY_PREFIX : pystr.
(** [zlib.crc32], [json.dumps], [str] of a column value and of an
    [HTTPException], [Path(name).suffix], [os.path.join] and
    [str(uuid.uuid4())] *)
Variable zlib_crc32 : list N -> Z.
Variable json_dumps : json -> pystr.
Variable py_str : json -> pystr.
Variable http_exception_str : nat -> pystr -> pystr.
Variable path_suffix : pystr -> pystr.
Variable path_join : pystr -> pystr -> pystr.
Variable uuid4 : pystr.
(** [db_client.execute_query], writing the temporary file and
    [s3_client.put_object] *)
Variable execute_query :
  pystr -> list json -> Outcome (list (list (pystr * json))).
Variable write_file : pystr -> list N -> Outcome unit.
Variable put_object : pystr -> pystr -> list N -> Outcome unit.

Definition str_of_raisable (e : Raisable) : pystr :=
  match e with
  | HTTPException status_code detail => http_exception_str status_code detail
  | Exception text => text
  end.

Definition check_query : pystr :=
  py "SELECT request_id, status, metadata FROM " ++ DB_SCHEMA
     ++ py ".extraction_tracker WHERE application_id = $1 AND metadata->>'checksum' = $2 AND metadata->>'original_filename' = $3 ORDER BY created_at DESC LIMIT 1".

Definition insert_query : pystr :=
  py "INSERT INTO " ++ DB_SCHEMA
     ++ py ".extraction_tracker (application_id, metadata, status, message) VALUES ($1, $2, $3, $4) RETURNING request_id".

(** The duplicate check: the response that ends the request, if any. *)
Definition check_duplicates (db_client : bool) (checksum : Z)
           (filename : pystr) : Action (option Reply) :=
  if db_client then
    let params :=
      [JStr APPLICATION_ID; JStr (str_of_nat (Z.to_nat checksum));
       JStr filename] in
    records <~ call (Query check_query params)
                    (execute_query check_query params) ;;
    match records with
    | rec :: _ =>
        status <~ getitem rec (py "status") ;;
        if eq_str status STATUS_SUCCESS then
          request_id <~ getitem rec (py "request_id") ;;
          done (Some (JSONResponse
                        (JDict [(py "request_id", JStr (py_str request_id));
                                (py "message",
                                 JStr (py "Duplicate successful request found."));
                                (py "status", status);
                                (py "data",
                                 match assoc (py "extracted_data") rec with
                                 | Some v => v
                                 | None => JNull
                                 end)])
                        200))
        else if eq_str status STATUS_INPROGRESS then
          request_id <~ getitem rec (py "request_id") ;;
          done (Some (JSONResponse
                        (JDict [(py "request_id", JStr (py_str request_id));
                                (py "message",
                                 JStr (py "Extraction already in progress for this file."));
                                (py "status", status)])
                        202))
        else done None
    | [] => done None
    end
  else done None.

(** The body of the [try] of [extract_data]; [content] is what
    [file.read()] gave and [filename] is [file.filename]. *)
Definition extract_try (db_client s3_client : bool) (content : list N)
           (filename : pystr) : Action Reply :=
  match content with
  | [] => raise (HTTPException 400 (py "Empty file"))
  | _ :: _ =>
      let checksum := calculate_crc32 (zlib_crc32 content) in
      duplicate <~ check_duplicates db_client checksum filename ;;
      match duplicate with
      | Some response => done response
      | None =>
          let temp_id := uuid4 in
          let file_ext := path_suffix filename in
          let temp_filename := temp_id ++ file_ext in
          let file_path := path_join TEMP_FOLDER temp_filename in
          _ <~ call (WriteFile file_path content)
                    (write_file file_path content) ;;
          s3_key <~ (if s3_client then
                       let s3_key := S3_KEY_PREFIX ++ temp_filename in
                       fun log =>
                         (match put_object S3_BUCKET_NAME s3_key content with
                          | Returned _ => Ok (JStr s3_key)
                          | Raised _ => Ok JNull
                          end,
                          log ++ [PutObject S3_BUCKET_NAME s3_key content])
                     else done JNull) ;;
          let metadata :=
            JDict [(py "original_filename", JStr filename);
                   (py "checksum", JStr (str_of_nat (Z.to_nat checksum)));
                   (py "file_size", JInt (Z.of_nat (length content)));
                   (py "s3_key", s3_key)] in
          request_id <~ (if db_client then
                           let params :=
                             [JStr APPLICATION_ID;
                              JStr (json_dumps metadata);
                              JStr STATUS_INITIATED; JStr (py "Initiated")] in
                           rows <~ call (Query insert_query params)
                                        (execute_query insert_query params) ;;
                           row <~ first_row rows ;;
                           request_id <~ getitem row (py "request_id") ;;
                           done (py_str request_id)
                         else done temp_id) ;;
          _ <~ (fun log => (Ok tt, log ++ [AddTask request_id file_path])) ;;
          done (Dict (JDict [(py "request_id", JStr request_id);
                             (py "message",
                              JStr (py "Upload successful, processing started."));
                             (py "status", JStr STATUS_INITIATED)]))
      end
  end.

(** [extract_data]: the reply and the effects. *)
Definition extract_data (db_client s3_client : bool) (content : list N)
           (filename : pystr) : Reply * list Effect :=
  match extract_try db_client s3_client content filename [] with
  | (Ok reply, log) => (reply, log)
  | (Fail e, log) => (Raises 500 (str_of_raisable e), log)
  end.

End Upload.

End Main.

(** * Further vocabulary *)

(** [stitch overlap windows]: the first window followed by every later
    window without its first [overlap] elements. *)
Definition stitch (A : Type) (overlap : nat) (windows : list (list A))
  : list A :=
  match windows with
  | [] => []
  | w :: rest => w ++ concat (List.map (skipn overlap) rest)
  end.

(** The string leaves of a value (dict keys are not leaves). *)
Fixpoint string_leaves (x : json) : list pystr :=
  match x with
  | JStr s => [s]
  | JList l => flat_map string_leaves l
  | JDict d => flat_map (fun kv => string_leaves (snd kv)) d
  | _ => []
  end.

(** No string leaf holds a character that [sanitize_data] removes. *)
Definition clean_json (x : json) : Prop :=
  Forall (Forall (fun c => GenericDataExtractor.removed_char c = false))
         (string_leaves x).

(** The [type] a field node is read with: its ["type"] entry, or
    ["string"] when it has none. *)
Definition json_type_of (d : list (pystr * json)) : json :=
  match assoc (py "type") d with
  | Some json_type => json_type
  | None => JStr (py "string")
  end.

(** An entry that is missing or falsy. *)
Definition absent_or_falsy (key : pystr) (d : list (pystr * json)) : Prop :=
  match assoc key d with
  | Some v => truthy v = false
  | None => True
  end.

(** The base types of [mapping], and [Any]. *)
Definition base_type (T : DynamicModelBuilder.PyType) : bool :=
  match T with
  | DynamicModelBuilder.Str | DynamicModelBuilder.Int
  | DynamicModelBuilder.Float | DynamicModelBuilder.Bool
  | DynamicModelBuilder.Any => true
  | _ => false
  end.

(** [strict node T]: the type [T] follows the schema node [node] under the
    strict contract, at every depth. An object node that declares
    properties gives a model class that forbids other keys, each field of
    which is a declared property, required, of a type that follows the
    node of this property; an object node whose [properties] is missing or
    empty gives the open map [Dict[str, Any]]; an array gives the list of
    what follows its [items], or [List[str]] without [items]; any other
    node gives a base type or [Any]. *)
Inductive strict : json -> DynamicModelBuilder.PyType -> Prop :=
| strict_base d T :
    eq_str (json_type_of d) (py "array") = false ->
    eq_str (json_type_of d) (py "object") = false ->
    base_type T = true ->
    strict (JDict d) T
| strict_array_of_str d :
    eq_str (json_type_of d) (py "array") = true ->
    absent_or_falsy (py "items") d ->
    strict (JDict d) (DynamicModelBuilder.List_ DynamicModelBuilder.Str)
| strict_array d items T :
    eq_str (json_type_of d) (py "array") = true ->
    assoc (py "items") d = Some items -> truthy items = true ->
    strict items T ->
    strict (JDict d) (DynamicModelBuilder.List_ T)
| strict_open_map d :
    eq_str (json_type_of d) (py "object") = true ->
    absent_or_falsy (py "properties") d ->
    strict (JDict d)
           (DynamicModelBuilder.Dict_ DynamicModelBuilder.Str
                                      DynamicModelBuilder.Any)
| strict_model d props name fields :
    eq_str (json_type_of d) (py "object") = true ->
    assoc (py "properties") d = Some (JDict props) -> props <> [] ->
    (forall f, In f fields ->
       DynamicModelBuilder.required f = true
       /\ exists node, In (fst f, node) props /\ strict node (fst (snd f))) ->
    strict (JDict d)
           (DynamicModelBuilder.Model
              name {| DynamicModelBuilder.extra := DynamicModelBuilder.forbid |}
              fields).

(** A field node [_resolve_python_type] can work on: a dict whose type can
    be hashed; for an array, [items] missing, falsy or such a node again;
    for an object, [properties] missing, falsy or a dict of such nodes
    under names that satisfy [accepted]. *)
Inductive well_formed_field (accepted : pystr -> bool) : json -> Prop :=
| wf_base d :
    eq_str (json_type_of d) (py "array") = false ->
    eq_str (json_type_of d) (py "object") = false ->
    DynamicModelBuilder.hashable (json_type_of d) = true ->
    well_formed_field accepted (JDict d)
| wf_array_of_str d :
    eq_str (json_type_of d) (py "array") = true ->
    absent_or_falsy (py "items") d ->
    well_formed_field accepted (JDict d)
| wf_array d items :
    eq_str (json_type_of d) (py "array") = true ->
    assoc (py "items") d = Some items -> truthy items = true ->
    well_formed_field accepted items ->
    well_formed_field accepted (JDict d)
| wf_open_object d :
    eq_str (json_type_of d) (py "object") = true ->
    absent_or_falsy (py "properties") d ->
    well_formed_field accepted (JDict d)
| wf_object d props :
    eq_str (json_type_of d) (py "object") = true ->
    assoc (py "properties") d = Some (JDict props) -> props <> [] ->
    forallb accepted (List.map fst props) = true ->
    Forall (fun kv => well_formed_field accepted (snd kv)) props ->
    well_formed_field accepted (JDict d).

(** A schema [build_model_from_schema] can work on: a dict whose
    [properties], when present, is a dict of well-formed field nodes under
    names that satisfy [accepted]. *)
Definition well_formed_schema (accepted : pystr -> bool) (schema : json)
  : Prop :=
  exists d,
    schema = JDict d
    /\ match assoc (py "properties") d with
       | None => True
       | Some (JDict props) =>
           forallb accepted (List.map fst props) = true
           /\ Forall (fun kv => well_formed_field accepted (snd kv)) props
       | Some _ => False
       end.

(** The keyword arguments [update_tracker] does not skip: those whose
    value is not [None]. *)
Definition not_none (kv : pystr * json) : bool :=
  match snd kv with
  | JNull => false
  | _ => true
  end.

Definition kept_kwargs (kwargs : list (pystr * json))
  : list (pystr * json) :=
  filter not_none kwargs.

(** The assignments [key = $idx], [key' = $(idx+1)], ... *)
Fixpoint numbered (idx : nat) (kwargs : list (pystr * json)) : list pystr :=
  match kwargs with
  | [] => []
  | kv :: rest =>
      (fst kv ++ py " = $" ++ str_of_nat idx) :: numbered (S idx) rest
  end.

(** * Part II. Properties *)

(** ** Python strings and slices *)

Lemma pystr_eqb_eq (a b : pystr) : pystr_eqb a b = true <-> a = b.
Proof.
  unfold pystr_eqb. destruct (list_eq_dec N.eq_dec a b); split; congruence.
Qed.

Lemma pystr_eqb_refl (a : pystr) : pystr_eqb a a = true.
Proof. now apply pystr_eqb_eq. Qed.

Lemma pystr_eqb_sym (a b : pystr) : pystr_eqb a b = pystr_eqb b a.
Proof.
  unfold pystr_eqb.
  destruct (list_eq_dec N.eq_dec a b), (list_eq_dec N.eq_dec b a);
    congruence.
Qed.

Lemma pystr_eqb_neq (a b : pystr) : pystr_eqb a b = false <-> a <> b.
Proof.
  unfold pystr_eqb. destruct (list_eq_dec N.eq_dec a b); split; congruence.
Qed.

Lemma filter_filter (A : Type) (f g : A -> bool) (l : list A) :
  filter g (filter f l) = filter (fun x => f x && g x) l.
Proof.
  induction l as [|x l IH]; simpl; [reflexivity|].
  destruct (f x); simpl; [destruct (g x)|]; now rewrite IH.
Qed.

Lemma lstrip_whitespace (s : pystr) :
  forallb is_whitespace s = true -> lstrip s = [].
Proof.
  induction s as [|c s IH]; simpl; [reflexivity|].
  destruct (is_whitespace c); simpl; [exact IH | discriminate].
Qed.

Lemma py_strip_whitespace (s : pystr) :
  forallb is_whitespace s = true -> py_strip s = [].
Proof.
  intro H. unfold py_strip. now rewrite (lstrip_whitespace s H).
Qed.

Lemma assoc_In (key : pystr) (d : list (pystr * json)) (v : json) :
  assoc key d = Some v -> In (key, v) d.
Proof.
  induction d as [|[k w] d IH]; simpl; [discriminate|].
  destruct (pystr_eqb k key) eqn:E.
  - apply pystr_eqb_eq in E. intros [= <-]. left. now subst.
  - auto.
Qed.

Lemma assoc_skip (key k : pystr) (r : json) (d1 d2 : list (pystr * json)) :
  k <> key -> assoc key (d1 ++ (k, r) :: d2) = assoc key (d1 ++ d2).
Proof.
  intro Hk. induction d1 as [|kv d1 IH]; simpl.
  - apply pystr_eqb_neq in Hk. now rewrite Hk.
  - now rewrite IH.
Qed.

(** * Properties of GenericDataExtractor *)

Module GenericDataExtractorFacts.

Import GenericDataExtractor.

(** ** sanitize_data *)

(** *** The string leaf *)

Lemma control_class_removed (c : N) :
  negb (c =? 0)%N && negb (in_class control_class c) = negb (removed_char c).
Proof.
  unfold in_class, control_class, removed_char, existsb, fst, snd.
  destruct (N.eqb_spec c 0), (N.eqb_spec c 11), (N.eqb_spec c 12),
    (N.eqb_spec c 127), (N.leb_spec 1 c), (N.leb_spec c 8),
    (N.leb_spec 11 c), (N.leb_spec c 11), (N.leb_spec 12 c),
    (N.leb_spec c 12), (N.leb_spec 14 c), (N.leb_spec c 31),
    (N.leb_spec 127 c), (N.leb_spec c 127);
    simpl; try reflexivity; lia.
Qed.

Lemma sanitize_str_filter (s : pystr) :
  sanitize_str s = filter (fun c => negb (removed_char c)) s.
Proof.
  unfold sanitize_str, re_sub_class, str_remove.
  rewrite filter_filter. apply filter_ext. intro c.
  apply control_class_removed.
Qed.

Lemma sanitize_str_cleaned (s : pystr) : cleaned s (sanitize_str s).
Proof.
  split; [|apply sanitize_str_filter].
  rewrite sanitize_str_filter. apply Forall_forall. intros c Hc.
  apply filter_In in Hc. destruct Hc as [_ Hc].
  now apply negb_true_iff in Hc.
Qed.

Lemma sanitize_str_idem (s : pystr) :
  sanitize_str (sanitize_str s) = sanitize_str s.
Proof.
  rewrite !sanitize_str_filter, filter_filter. apply filter_ext.
  intro c. now destruct (removed_char c).
Qed.

(** *** The recursion over dicts and lists *)

(** C7: in [sanitize_data x] every string leaf is the corresponding leaf of
    [x] with exactly NUL, 0x01-0x08, 0x0B, 0x0C, 0x0E-0x1F and 0x7F removed
    (none of them is left, every other character stays, in order; tab,
    newline and carriage return are among the kept ones), and everything
    that is not a string leaf - dict keys and their order, list order and
    length, the other scalars - is unchanged. *)
Theorem sanitize_data_leafwise :
  (removed_char 9 = false /\ removed_char 10 = false
   /\ removed_char 13 = false)
  /\ forall x : json, leafwise cleaned x (sanitize_data x).
Proof.
  split; [now repeat split|].
  induction x as [| | | | s | l IH | d IH] using json_nested_ind;
    simpl; try constructor.
  - apply sanitize_str_cleaned.
  - induction IH; simpl; constructor; assumption.
  - induction IH; simpl; constructor; auto.
Qed.

(** C8: [sanitize_data] is idempotent on every value. *)
Theorem sanitize_data_idempotent (x : json) :
  sanitize_data (sanitize_data x) = sanitize_data x.
Proof.
  induction x as [| | | | s | l IH | d IH] using json_nested_ind;
    simpl; try reflexivity.
  - now rewrite sanitize_str_idem.
  - f_equal. rewrite map_map. induction IH; simpl; [reflexivity|].
    now f_equal.
  - f_equal. rewrite map_map. induction IH as [|kv d Hkv _ IHd];
      simpl; [reflexivity|].
    rewrite Hkv. now f_equal.
Qed.

(** *** Clean data *)

Lemma sanitize_str_fixed (s : pystr) :
  Forall (fun c => removed_char c = false) s -> sanitize_str s = s.
Proof.
  intro H. rewrite sanitize_str_filter.
  induction H as [|c s Hc _ IH]; simpl; [reflexivity|].
  now rewrite Hc, IH.
Qed.

Lemma clean_json_list (l : list json) :
  clean_json (JList l) <-> Forall clean_json l.
Proof.
  unfold clean_json. simpl. induction l as [|x l IH]; simpl.
  - split; constructor.
  - rewrite Forall_app, IH. split.
    + intros [H1 H2]. now constructor.
    + intro H. inversion H. now split.
Qed.

Lemma clean_json_dict (d : list (pystr * json)) :
  clean_json (JDict d) <-> Forall (fun kv => clean_json (snd kv)) d.
Proof.
  unfold clean_json. simpl. induction d as [|kv d IH]; simpl.
  - split; constructor.
  - rewrite Forall_app, IH. split.
    + intros [H1 H2]. now constructor.
    + intro H. inversion H. now split.
Qed.

Lemma sanitize_data_clean (x : json) : clean_json (sanitize_data x).
Proof.
  induction x as [| | | | s | l IH | d IH] using json_nested_ind;
    try (now constructor).
  - constructor; [|constructor]. apply sanitize_str_cleaned.
  - simpl. apply clean_json_list. induction IH; simpl; constructor; auto.
  - simpl. apply clean_json_dict. induction IH; simpl; constructor; auto.
Qed.

Lemma clean_json_fixed (x : json) : clean_json x -> sanitize_data x = x.
Proof.
  induction x as [| | | | s | l IH | d IH] using json_nested_ind;
    intro H; try reflexivity.
  - simpl. f_equal. apply sanitize_str_fixed. now inversion H.
  - simpl. f_equal. apply clean_json_list in H.
    induction IH as [|x l Hx _ IHl]; simpl; [reflexivity|].
    inversion H; subst. rewrite Hx by assumption. f_equal. now apply IHl.
  - simpl. f_equal. apply clean_json_dict in H.
    induction IH as [|[k v] d Hkv _ IHd]; simpl; [reflexivity|].
    inversion H; subst. simpl in *. rewrite Hkv by assumption.
    f_equal. now apply IHd.
Qed.

(** X10: [sanitize_data] leaves a value unchanged exactly when none of its
    string leaves holds a removed character: clean data passes through
    untouched, and anything else is altered. *)
Theorem sanitize_data_fixed_iff (x : json) :
  sanitize_data x = x <-> clean_json x.
Proof.
  split.
  - intro H. rewrite <- H. apply sanitize_data_clean.
  - apply clean_json_fixed.
Qed.

Section ExtractorFacts.
Variable token : Type.
Variable encode : pystr -> list token.
Variable decode : list token -> pystr.
Variables max_tokens token_overlap : Z.
Variable json_dumps : json -> pystr.
Variable client : nat -> pystr -> pystr -> Response.

(** The functions of the instance at hand. *)
Local Abbreviation count_tokens := (GenericDataExtractor.count_tokens encode).
Local Abbreviation chunk_loop :=
  (GenericDataExtractor.chunk_loop decode max_tokens token_overlap).
Local Abbreviation chunk_text :=
  (GenericDataExtractor.chunk_text encode decode max_tokens token_overlap).
Local Abbreviation window_loop :=
  (GenericDataExtractor.window_loop max_tokens token_overlap).
Local Abbreviation window_text := (GenericDataExtractor.window_text decode).
Local Abbreviation tiling :=
  (GenericDataExtractor.tiling max_tokens token_overlap).
Local Abbreviation system_prompt :=
  (GenericDataExtractor.system_prompt json_dumps).
Local Abbreviation extract_result :=
  (GenericDataExtractor.extract_result json_dumps client).
Local Abbreviation extract_structured :=
  (GenericDataExtractor.extract_structured json_dumps client).
Local Abbreviation process_chunks :=
  (GenericDataExtractor.process_chunks encode json_dumps client).
Local Abbreviation process_file :=
  (GenericDataExtractor.process_file encode decode max_tokens token_overlap
     json_dumps client).
Local Abbreviation chunk_result :=
  (GenericDataExtractor.chunk_result json_dumps client).

(** ** chunk_text *)

Lemma chunk_loop_windows fuel tokens total chunks start :
  chunk_loop fuel tokens total chunks start =
  option_map (fun ws => chunks ++ List.map (window_text tokens) ws)
             (window_loop fuel total start).
Proof.
  revert chunks start.
  induction fuel as [|fuel IH]; intros chunks start; simpl; [reflexivity|].
  destruct (start <? total)%Z; simpl; [|now rewrite app_nil_r].
  destruct (Z.min (start + max_tokens) total =? total)%Z; simpl;
    [reflexivity|].
  rewrite IH.
  destruct (window_loop fuel total _); simpl; [|reflexivity].
  now rewrite <- app_assoc.
Qed.

(** C4: a text of at most [max_tokens] tokens comes back as the single
    chunk [text], unchanged, whatever the fuel. *)
Theorem chunk_text_within_budget (fuel : nat) (text : pystr) :
  (count_tokens text <= max_tokens)%Z ->
  chunk_text fuel text = Some [text].
Proof.
  unfold GenericDataExtractor.count_tokens, GenericDataExtractor.chunk_text.
  intro H.
  destruct (Z.geb_spec max_tokens (Z.of_nat (length (encode text))));
    [reflexivity | lia].
Qed.

(** *** The windows of an over-long text *)

Local Open Scope Z_scope.

Lemma window_loop_tiling (T : Z) :
  0 <= token_overlap < max_tokens ->
  forall (fuel : nat) (s : Z),
    0 <= s < T -> (Z.to_nat (T - s) <= fuel)%nat ->
    exists ws, window_loop fuel T s = Some ws /\ tiling T s ws.
Proof.
  intros HO. induction fuel as [|fuel IH]; intros s Hs Hfuel; [lia|].
  simpl. destruct (Z.ltb_spec s T) as [_|]; [|lia].
  destruct (Z.eqb_spec (Z.min (s + max_tokens) T) T) as [E|E].
  - exists [(s, Z.min (s + max_tokens) T)]. split; [reflexivity|].
    rewrite E. apply tiling_last; lia.
  - assert (Hlt : s + max_tokens < T) by lia.
    rewrite Z.min_l by lia.
    destruct (IH (s + max_tokens - token_overlap)) as [ws [Hws Ht]];
      [lia | lia |].
    exists ((s, s + max_tokens) :: ws). rewrite Hws. split;
      [reflexivity | now apply tiling_step].
Qed.

Lemma tiling_head T s ws :
  tiling T s ws -> exists e rest, ws = (s, e) :: rest.
Proof. intros [? ? ?|? ? ? ?]; eauto. Qed.

Lemma tiling_unique T s ws ws' :
  tiling T s ws -> tiling T s ws' -> ws = ws'.
Proof.
  intros Ht. revert ws'.
  induction Ht as [s H1 H2 | s ws Hlt Ht IH]; intros ws' Ht';
    inversion Ht'; subst; try lia; [reflexivity|].
  f_equal. now apply IH.
Qed.

Lemma tiling_end T s ws : tiling T s ws -> snd (last ws (0, 0)) = T.
Proof.
  induction 1 as [s H1 H2 | s ws Hlt Ht IH]; [reflexivity|].
  destruct (tiling_head Ht) as [e [rest ->]]. exact IH.
Qed.

Lemma tiling_nth T s ws :
  tiling T s ws ->
  forall k, (S k < length ws)%nat ->
    fst (nth (S k) ws (0, 0))
    = fst (nth k ws (0, 0)) + (max_tokens - token_overlap)
    /\ snd (nth k ws (0, 0)) = fst (nth k ws (0, 0)) + max_tokens
    /\ snd (nth k ws (0, 0)) < T.
Proof.
  induction 1 as [s H1 H2 | s ws Hlt Ht IH]; intros k Hk; simpl in Hk;
    [lia|].
  destruct k as [|k].
  - destruct (tiling_head Ht) as [e [rest ->]]. simpl. lia.
  - apply IH. lia.
Qed.

Lemma tiling_cover T s ws :
  0 <= token_overlap -> tiling T s ws ->
  forall t, s <= t < T -> exists w, In w ws /\ fst w <= t < snd w.
Proof.
  intros HO. induction 1 as [s H1 H2 | s ws Hlt Ht IH]; intros t Hrange.
  - exists (s, T). simpl. auto.
  - destruct (Z.lt_ge_cases t (s + max_tokens)) as [Hin|Hout].
    + exists (s, s + max_tokens). simpl. split; [auto | lia].
    + destruct (IH t) as [w [Hw Hr]]; [lia|].
      exists w. simpl. auto.
Qed.

Lemma tiling_bounds T s ws :
  0 <= token_overlap < max_tokens -> tiling T s ws -> 0 <= s ->
  forall w, In w ws -> 0 <= fst w /\ fst w < snd w <= T.
Proof.
  intros HO. induction 1 as [s H1 H2 | s ws Hlt Ht IH]; intros Hs w Hw.
  - destruct Hw as [<-|[]]. simpl. lia.
  - destruct Hw as [<-|Hw]; [simpl; lia|]. apply IH; [lia | assumption].
Qed.

Lemma py_slice_length (A : Type) (l : list A) (lo hi : Z) :
  0 <= lo <= hi -> hi <= Z.of_nat (length l) ->
  Z.of_nat (length (py_slice l lo hi)) = hi - lo.
Proof.
  intros H1 H2. unfold py_slice.
  destruct (Z.ltb_spec lo 0), (Z.ltb_spec hi 0); try lia.
  rewrite length_firstn, length_skipn. lia.
Qed.

(** C5: for a text of [T > max_tokens] tokens and [0 <= token_overlap <
    max_tokens], the chunks are the decoded windows [ws] where: the windows
    cover every position of [[0, T)]; each lies inside [[0, T]] and holds
    [end - start] tokens; the first starts at 0; the last ends at [T]; and
    every window after the first starts [max_tokens - token_overlap] after
    the start of the previous one, which is [max_tokens] wide and is
    reached by the next (no gap). *)
Theorem chunk_text_windows (text : pystr) :
  let tokens := encode text in
  let T := Z.of_nat (length tokens) in
  max_tokens < T -> 0 <= token_overlap < max_tokens ->
  exists ws : list (Z * Z),
    (forall fuel, (length tokens <= fuel)%nat ->
       chunk_text fuel text = Some (List.map (window_text tokens) ws))
    /\ (forall t, 0 <= t < T -> exists w, In w ws /\ fst w <= t < snd w)
    /\ (forall w, In w ws ->
          0 <= fst w /\ fst w < snd w <= T
          /\ Z.of_nat (length (py_slice tokens (fst w) (snd w)))
             = snd w - fst w)
    /\ fst (hd (0, 0) ws) = 0
    /\ snd (last ws (0, 0)) = T
    /\ (forall k, (S k < length ws)%nat ->
          fst (nth (S k) ws (0, 0))
          = fst (nth k ws (0, 0)) + (max_tokens - token_overlap)
          /\ snd (nth k ws (0, 0)) = fst (nth k ws (0, 0)) + max_tokens
          /\ fst (nth (S k) ws (0, 0)) <= snd (nth k ws (0, 0))).
Proof.
  intros tokens T HT HO.
  destruct (@window_loop_tiling T HO (length tokens) 0) as [ws [Hws Ht]];
    [lia | lia |].
  exists ws. repeat split.
  - intros fuel Hfuel. unfold GenericDataExtractor.chunk_text.
    fold tokens. fold T.
    destruct (Z.geb_spec max_tokens T); [lia|].
    rewrite chunk_loop_windows.
    destruct (@window_loop_tiling T HO fuel 0) as [ws' [Hws' Ht']];
      [lia | lia |].
    rewrite Hws'. simpl. now rewrite (tiling_unique Ht Ht').
  - now apply (tiling_cover (proj1 HO) Ht).
  - apply (tiling_bounds HO Ht (Z.le_refl 0) w H).
  - apply (tiling_bounds HO Ht (Z.le_refl 0) w H).
  - apply (tiling_bounds HO Ht (Z.le_refl 0) w H).
  - apply py_slice_length;
      pose proof (tiling_bounds HO Ht (Z.le_refl 0) w H); fold T; lia.
  - destruct (tiling_head Ht) as [e [rest ->]]. reflexivity.
  - apply (tiling_end Ht).
  - apply (tiling_nth Ht H).
  - apply (tiling_nth Ht H).
  - destruct (tiling_nth Ht H) as [H1 [H2 _]]. lia.
Qed.

(** C6: with [0 <= token_overlap < max_tokens] the loop of [chunk_text]
    terminates on every text: any fuel of at least the token count yields
    the same chunks. On an over-long text every window starts strictly
    after the previous one, and a window ends at the total token count
    exactly when it is the last. *)
Theorem chunk_text_terminates (text : pystr) :
  let tokens := encode text in
  let T := Z.of_nat (length tokens) in
  0 <= token_overlap < max_tokens ->
  exists chunks : list pystr,
    (forall fuel, (length tokens <= fuel)%nat ->
       chunk_text fuel text = Some chunks)
    /\ (max_tokens < T ->
        exists ws : list (Z * Z),
          (forall fuel, (length tokens <= fuel)%nat ->
             window_loop fuel T 0 = Some ws)
          /\ chunks = List.map (window_text tokens) ws
          /\ (forall k, (S k < length ws)%nat ->
                fst (nth k ws (0, 0)) < fst (nth (S k) ws (0, 0))
                /\ snd (nth k ws (0, 0)) < T)
          /\ snd (last ws (0, 0)) = T).
Proof.
  intros tokens T HO.
  destruct (Z.le_gt_cases T max_tokens) as [Hle|Hgt].
  - exists [text]. split; [|lia].
    intros fuel _. unfold GenericDataExtractor.chunk_text.
    fold tokens. fold T.
    destruct (Z.geb_spec max_tokens T); [reflexivity | lia].
  - destruct (@window_loop_tiling T HO (length tokens) 0) as [ws [Hws Ht]];
      [lia | lia |].
    assert (Hall : forall fuel, (length tokens <= fuel)%nat ->
                     window_loop fuel T 0 = Some ws).
    { intros fuel Hfuel.
      destruct (@window_loop_tiling T HO fuel 0) as [ws' [Hws' Ht']];
        [lia | lia |].
      now rewrite Hws', (tiling_unique Ht Ht'). }
    exists (List.map (window_text tokens) ws). split.
    + intros fuel Hfuel. unfold GenericDataExtractor.chunk_text.
      fold tokens. fold T.
      destruct (Z.geb_spec max_tokens T); [lia|].
      now rewrite chunk_loop_windows, (Hall fuel Hfuel).
    + intros _. exists ws. repeat split; try assumption.
      * destruct (tiling_nth Ht H) as [H1 _]. lia.
      * apply (tiling_nth Ht H).
      * apply (tiling_end Ht).
Qed.

(** When the overlap equals the window width the start index never moves:
    the loop runs for ever on an over-long text. *)
Lemma chunk_text_overlap_diverges (text : pystr) :
  token_overlap = max_tokens ->
  0 < max_tokens < Z.of_nat (length (encode text)) ->
  forall fuel, chunk_text fuel text = None.
Proof.
  intros HO HM fuel. unfold GenericDataExtractor.chunk_text.
  destruct (Z.geb_spec max_tokens (Z.of_nat (length (encode text))));
    [lia|].
  generalize (@nil pystr).
  induction fuel as [|fuel IH]; intro chunks;
    cbn [GenericDataExtractor.chunk_loop]; [reflexivity|].
  destruct (Z.ltb_spec 0 (Z.of_nat (length (encode text)))); [|lia].
  rewrite Z.min_l by lia.
  destruct (Z.eqb_spec (0 + max_tokens) (Z.of_nat (length (encode text))));
    [lia|].
  replace (0 + max_tokens - token_overlap) with 0 by lia.
  apply IH.
Qed.

(** *** More on the windows *)

Lemma window_loop_sound (T : Z) :
  0 <= token_overlap < max_tokens ->
  forall (fuel : nat) (s : Z) (ws : list (Z * Z)),
    0 <= s < T -> window_loop fuel T s = Some ws -> tiling T s ws.
Proof.
  intros HO. induction fuel as [|fuel IH]; intros s ws Hs H; [discriminate|].
  simpl in H. destruct (Z.ltb_spec s T) as [_|]; [|lia].
  destruct (Z.eqb_spec (Z.min (s + max_tokens) T) T) as [E|E].
  - injection H as <-. rewrite E. apply tiling_last; lia.
  - rewrite Z.min_l in H by lia.
    destruct (window_loop fuel T (s + max_tokens - token_overlap))
      as [ws'|] eqn:Hws; [|discriminate].
    injection H as <-. apply tiling_step; [lia|].
    apply IH; [lia | exact Hws].
Qed.

(** What [chunk_text] returns on an over-long text are the decoded windows
    of a tiling from 0. *)
Lemma chunk_text_tiling (fuel : nat) (text : pystr) (chunks : list pystr) :
  let tokens := encode text in
  let T := Z.of_nat (length tokens) in
  max_tokens < T -> 0 <= token_overlap < max_tokens ->
  chunk_text fuel text = Some chunks ->
  exists ws, chunks = List.map (window_text tokens) ws /\ tiling T 0 ws.
Proof.
  intros tokens T HT HO. unfold GenericDataExtractor.chunk_text.
  fold tokens. fold T. destruct (Z.geb_spec max_tokens T); [lia|].
  rewrite chunk_loop_windows.
  destruct (window_loop fuel T 0) as [ws|] eqn:Hws; [|discriminate].
  intros [= <-]. exists ws. split; [reflexivity|].
  apply (@window_loop_sound T HO fuel 0 ws); [lia | exact Hws].
Qed.

Lemma tiling_starts T s ws :
  tiling T s ws ->
  forall k, (k < length ws)%nat ->
    fst (nth k ws (0, 0)) = s + Z.of_nat k * (max_tokens - token_overlap).
Proof.
  induction 1 as [s H1 H2 | s ws Hlt Ht IH]; intros k Hk; simpl in Hk.
  - assert (k = 0%nat) as -> by lia. simpl. lia.
  - destruct k as [|k]; [simpl; lia|].
    cbn [nth]. rewrite IH by lia. lia.
Qed.

Lemma tiling_length T s ws :
  0 <= token_overlap < max_tokens -> tiling T s ws ->
  Z.of_nat (length ws)
  = 1 + Z.max 0 ((T - s - token_overlap - 1) / (max_tokens - token_overlap)).
Proof.
  intros HO. induction 1 as [s H1 H2 | s ws Hlt Ht IH].
  - rewrite Z.max_l; [reflexivity|].
    apply Z.lt_succ_r. apply Z.div_lt_upper_bound; lia.
  - cbn [length]. rewrite Nat2Z.inj_succ, IH.
    replace (T - s - token_overlap - 1)
      with (T - (s + max_tokens - token_overlap) - token_overlap - 1
            + 1 * (max_tokens - token_overlap)) by lia.
    rewrite Z.div_add by lia.
    pose proof (Z.div_pos
                  (T - (s + max_tokens - token_overlap) - token_overlap - 1)
                  (max_tokens - token_overlap) ltac:(lia) ltac:(lia)) as Hq.
    rewrite !Z.max_r; lia.
Qed.

Lemma tiling_width T s ws :
  0 <= token_overlap < max_tokens -> tiling T s ws ->
  forall w, In w ws -> 1 <= snd w - fst w <= max_tokens.
Proof.
  intros HO. induction 1 as [s H1 H2 | s ws Hlt Ht IH]; intros w Hw.
  - destruct Hw as [<-|[]]. simpl. lia.
  - destruct Hw as [<-|Hw]; [simpl; lia|]. now apply IH.
Qed.

(** X1: on an over-long text with [0 <= token_overlap < max_tokens], every
    chunk returned is the decoding of a window that holds at least one and
    at most [max_tokens] tokens. *)
Theorem chunk_text_window_sizes (fuel : nat) (text : pystr)
        (chunks : list pystr) :
  let tokens := encode text in
  let T := Z.of_nat (length tokens) in
  max_tokens < T -> 0 <= token_overlap < max_tokens ->
  chunk_text fuel text = Some chunks ->
  exists ws : list (Z * Z),
    chunks = List.map (window_text tokens) ws
    /\ forall w, In w ws ->
         1 <= Z.of_nat (length (py_slice tokens (fst w) (snd w)))
         <= max_tokens.
Proof.
  intros tokens T HT HO Hrun.
  destruct (chunk_text_tiling fuel text HT HO Hrun) as [ws [-> Ht]].
  exists ws. split; [reflexivity|]. intros w Hw.
  pose proof (tiling_bounds HO Ht (Z.le_refl 0) w Hw) as Hb.
  pose proof (tiling_width HO Ht w Hw) as Hwd.
  subst T tokens. rewrite py_slice_length; lia.
Qed.

(** X2: on an over-long text with [0 <= token_overlap < max_tokens], the
    number of chunks is [ceil((T - O) / (M - O))], that is
    [1 + (T - O - 1) / (M - O)], and window [k] starts at token
    [k * (M - O)]. *)
Theorem chunk_text_count (fuel : nat) (text : pystr) (chunks : list pystr) :
  let tokens := encode text in
  let T := Z.of_nat (length tokens) in
  let n := Z.of_nat (length chunks) in
  let step := max_tokens - token_overlap in
  max_tokens < T -> 0 <= token_overlap < max_tokens ->
  chunk_text fuel text = Some chunks ->
  n = 1 + (T - token_overlap - 1) / step
  /\ (n - 1) * step < T - token_overlap <= n * step
  /\ exists ws : list (Z * Z),
       chunks = List.map (window_text tokens) ws
       /\ forall k, (k < length ws)%nat ->
            fst (nth k ws (0, 0)) = Z.of_nat k * step.
Proof.
  intros tokens T n step HT HO Hrun.
  destruct (chunk_text_tiling fuel text HT HO Hrun) as [ws [Hc Ht]].
  pose proof (tiling_length HO Ht) as Hlen. fold tokens T step in Hlen.
  assert (Hstep : 0 < step) by (unfold step; lia).
  pose proof (Z.div_pos (T - token_overlap - 1) step
                ltac:(unfold step; lia) Hstep) as Hq.
  assert (Hn : n = 1 + (T - token_overlap - 1) / step).
  { unfold n. rewrite Hc, length_map, Hlen.
    replace (T - 0 - token_overlap - 1) with (T - token_overlap - 1) by lia.
    now rewrite Z.max_r. }
  split; [exact Hn|]. split.
  - pose proof (Z.mul_div_le (T - token_overlap - 1) step Hstep).
    pose proof (Z.mul_succ_div_gt (T - token_overlap - 1) step Hstep).
    rewrite Hn. nia.
  - exists ws. split; [exact Hc|]. intros k Hk.
    rewrite (tiling_starts Ht Hk). unfold step. lia.
Qed.

Lemma py_slice_in_range (A : Type) (l : list A) (lo hi : Z) :
  0 <= lo <= hi -> hi <= Z.of_nat (length l) ->
  py_slice l lo hi = firstn (Z.to_nat (hi - lo)) (skipn (Z.to_nat lo) l).
Proof.
  intros H1 H2. unfold py_slice.
  destruct (Z.ltb_spec lo 0), (Z.ltb_spec hi 0); try lia.
  now rewrite !Z.min_l by lia.
Qed.

Lemma tiling_next_end T s ws :
  0 <= token_overlap < max_tokens -> tiling T s ws ->
  forall k, (S k < length ws)%nat ->
    snd (nth k ws (0, 0)) < snd (nth (S k) ws (0, 0)).
Proof.
  intros HO. induction 1 as [s H1 H2 | s ws Hlt Ht IH]; intros k Hk;
    simpl in Hk; [lia|].
  destruct k as [|k]; [|apply IH; lia].
  inversion Ht; subst; simpl; lia.
Qed.

(** X3: on an over-long text with [0 <= token_overlap < max_tokens], two
    adjacent windows share exactly [token_overlap] tokens: the first
    [token_overlap] tokens of a window are the last [token_overlap] tokens
    of the window before it. *)
Theorem chunk_text_overlap_tokens (fuel : nat) (text : pystr)
        (chunks : list pystr) :
  let tokens := encode text in
  let T := Z.of_nat (length tokens) in
  max_tokens < T -> 0 <= token_overlap < max_tokens ->
  chunk_text fuel text = Some chunks ->
  exists ws : list (Z * Z),
    chunks = List.map (window_text tokens) ws
    /\ forall k, (S k < length ws)%nat ->
         let a := nth k ws (0, 0) in
         let b := nth (S k) ws (0, 0) in
         firstn (Z.to_nat token_overlap) (py_slice tokens (fst b) (snd b))
         = skipn (Z.to_nat (max_tokens - token_overlap))
                 (py_slice tokens (fst a) (snd a))
         /\ Z.of_nat (length (firstn (Z.to_nat token_overlap)
                                     (py_slice tokens (fst b) (snd b))))
            = token_overlap.
Proof.
  intros tokens T HT HO Hrun.
  destruct (chunk_text_tiling fuel text HT HO Hrun) as [ws [-> Ht]].
  exists ws. split; [reflexivity|]. intros k Hk a b.
  destruct (tiling_nth Ht Hk) as [Hb1 [Ha2 Ha2T]].
  pose proof (tiling_next_end HO Ht Hk) as Hb2.
  assert (Ha : In a ws) by (apply nth_In; lia).
  assert (Hb : In b ws) by (apply nth_In; lia).
  pose proof (tiling_bounds HO Ht (Z.le_refl 0) a Ha) as Hab.
  pose proof (tiling_bounds HO Ht (Z.le_refl 0) b Hb) as Hbb.
  fold a in Hb1, Ha2, Ha2T, Hb2. fold b in Hb1, Hb2.
  subst T tokens.
  rewrite !py_slice_in_range by lia.
  rewrite firstn_firstn, skipn_firstn_comm, skipn_skipn.
  replace (Nat.min (Z.to_nat token_overlap) (Z.to_nat (snd b - fst b)))
    with (Z.to_nat token_overlap) by lia.
  replace (Z.to_nat (snd a - fst a) - Z.to_nat (max_tokens - token_overlap))%nat
    with (Z.to_nat token_overlap) by lia.
  replace (Z.to_nat (max_tokens - token_overlap) + Z.to_nat (fst a))%nat
    with (Z.to_nat (fst b)) by lia.
  split; [reflexivity|].
  rewrite length_firstn, length_skipn. lia.
Qed.

Lemma tiling_stitch_tail (tokens : list token) s ws :
  0 <= token_overlap < max_tokens ->
  tiling (Z.of_nat (length tokens)) s ws -> 0 <= s ->
  concat (List.map (skipn (Z.to_nat token_overlap))
            (List.map (fun w => py_slice tokens (fst w) (snd w)) ws))
  = skipn (Z.to_nat (s + token_overlap)) tokens.
Proof.
  intros HO Ht. remember (Z.of_nat (length tokens)) as T eqn:HT.
  induction Ht as [s H1 H2 | s ws Hlt Ht IH]; intros Hs; simpl.
  - rewrite app_nil_r, py_slice_in_range by lia.
    rewrite firstn_all2 by (rewrite length_skipn; lia).
    rewrite skipn_skipn. f_equal. lia.
  - rewrite IH by lia. rewrite py_slice_in_range by lia.
    rewrite skipn_firstn_comm, skipn_skipn.
    set (n := (Z.to_nat (s + max_tokens - s) - Z.to_nat token_overlap)%nat).
    replace (Z.to_nat token_overlap + Z.to_nat s)%nat
      with (Z.to_nat (s + token_overlap)) by lia.
    replace (Z.to_nat (s + max_tokens - token_overlap + token_overlap))
      with (n + Z.to_nat (s + token_overlap))%nat by lia.
    rewrite <- (skipn_skipn n (Z.to_nat (s + token_overlap)) tokens).
    apply firstn_skipn.
Qed.

(** X4: on an over-long text with [0 <= token_overlap < max_tokens], the
    token windows stitched together - the first window, then every later
    window without its first [token_overlap] tokens - are the token
    sequence of the text, every token once and in order. *)
Theorem chunk_text_stitch (fuel : nat) (text : pystr)
        (chunks : list pystr) :
  let tokens := encode text in
  let T := Z.of_nat (length tokens) in
  max_tokens < T -> 0 <= token_overlap < max_tokens ->
  chunk_text fuel text = Some chunks ->
  exists ws : list (Z * Z),
    chunks = List.map (window_text tokens) ws
    /\ stitch (Z.to_nat token_overlap)
         (List.map (fun w => py_slice tokens (fst w) (snd w)) ws)
       = tokens.
Proof.
  intros tokens T HT HO Hrun.
  destruct (chunk_text_tiling fuel text HT HO Hrun) as [ws [-> Ht]].
  exists ws. split; [reflexivity|]. subst T tokens.
  inversion Ht as [s H1 H2 | s ws' Hlt Ht']; subst; simpl.
  - rewrite app_nil_r, py_slice_in_range by lia. simpl.
    apply firstn_all2. lia.
  - rewrite (tiling_stitch_tail (encode text) HO Ht') by lia.
    rewrite py_slice_in_range by lia. simpl.
    match goal with
    | |- firstn ?a _ ++ skipn ?b _ = _ => replace b with a by lia
    end.
    apply firstn_skipn.
Qed.

(** X5: when [token_overlap >= max_tokens] the start index never moves
    forward: on a text of more than [max_tokens >= 0] tokens the loop does
    not terminate, whatever the fuel. *)
Theorem chunk_text_overlap_too_large (text : pystr) :
  max_tokens <= token_overlap ->
  0 <= max_tokens < Z.of_nat (length (encode text)) ->
  forall fuel, chunk_text fuel text = None.
Proof.
  intros HO HM fuel. unfold GenericDataExtractor.chunk_text.
  destruct (Z.geb_spec max_tokens (Z.of_nat (length (encode text))));
    [lia|].
  assert (Hloop : forall chunks start, start <= 0 ->
            chunk_loop fuel (encode text)
              (Z.of_nat (length (encode text))) chunks start = None).
  { induction fuel as [|fuel IH]; intros chunks start Hstart;
      cbn [GenericDataExtractor.chunk_loop]; [reflexivity|].
    destruct (Z.ltb_spec start (Z.of_nat (length (encode text)))); [|lia].
    rewrite Z.min_l by lia.
    destruct (Z.eqb_spec (start + max_tokens)
                         (Z.of_nat (length (encode text)))); [lia|].
    apply IH. lia. }
  apply Hloop. lia.
Qed.

Local Close Scope Z_scope.

(** ** extract_structured and process_file *)

(** *** The results of a model call *)

Lemma extract_result_no_data n text previous_data :
  status (extract_result n text previous_data) <> py "success" ->
  data (extract_result n text previous_data) = None.
Proof.
  unfold GenericDataExtractor.extract_result.
  destruct (client n (system_prompt previous_data) text)
    as [e | [[|c r]|] [dump|]]; simpl; intro H; try reflexivity;
    now elim H.
Qed.

(** *** Whitespace-only text *)

(** C9: when the extracted text is empty or made of whitespace only,
    [process_file] returns status "failed" with the message "No text
    content found" and no data, and the list of model calls made is
    empty. *)
Theorem process_file_no_text (fuel : nat) (text : pystr) :
  forallb is_whitespace text = true ->
  process_file fuel (Returned text)
  = Some ({| status := py "failed"; data := None;
             message := py "No text content found" |}, []).
Proof.
  intro H. unfold GenericDataExtractor.process_file.
  now rewrite (py_strip_whitespace text H).
Qed.

(** *** The chunk loop *)

Lemma acc_from_cons acc d ds k :
  acc_from acc (d :: ds) (S k) = acc_from d ds k.
Proof. now destruct k. Qed.

Lemma process_chunks_successes (ds : list json) :
  forall (chunks : list pystr) (calls : list Call) (idx num_chunks : nat)
         (acc : json),
    (forall k, k < length ds ->
       let r := extract_result (length calls + k) (nth k chunks [])
                               (acc_from acc ds k) in
       status r = py "success" /\ data r = Some (nth k ds JNull)) ->
    length ds <= length chunks ->
    exists calls',
      length calls' = length calls + length ds
      /\ process_chunks calls chunks idx num_chunks acc
         = process_chunks calls' (skipn (length ds) chunks)
             (idx + length ds) num_chunks (acc_from acc ds (length ds)).
Proof.
  induction ds as [|d ds IH]; intros chunks calls idx num_chunks acc Hok Hlen.
  - exists calls. simpl. now rewrite !Nat.add_0_r.
  - destruct chunks as [|c chunks]; [simpl in Hlen; lia|].
    destruct (Hok 0) as [Hs Hd]; [simpl; lia|].
    rewrite Nat.add_0_r in Hs, Hd. simpl in Hs, Hd.
    destruct (IH chunks (calls ++ [(system_prompt acc, c)]) (S idx)
                 num_chunks d) as [calls' [Hl Heq]].
    + intros k Hk. rewrite length_app. simpl.
      replace (length calls + 1 + k) with (length calls + S k) by lia.
      destruct (Hok (S k)) as [Hs' Hd']; [simpl; lia|].
      rewrite acc_from_cons in Hs', Hd'. now split.
    + simpl in Hlen. lia.
    + exists calls'. split.
      * rewrite Hl, length_app. simpl. lia.
      * cbn [GenericDataExtractor.process_chunks
               GenericDataExtractor.extract_structured].
        rewrite Hs, Hd, pystr_eqb_refl, Heq.
        cbn [length skipn]. rewrite acc_from_cons.
        now replace (S idx + length ds) with (idx + S (length ds)) by lia.
Qed.

Lemma process_chunks_failure (calls : list Call) (chunk : pystr)
      (rest : list pystr) (idx num_chunks : nat) (acc : json) :
  let r := extract_result (length calls) chunk acc in
  status r <> py "success" ->
  process_chunks calls (chunk :: rest) idx num_chunks acc
  = (if truthy acc then
       {| status := py "failed"; data := Some acc;
          message := py "Partial failure at chunk " ++ str_of_nat idx
                        ++ py "/" ++ str_of_nat num_chunks ++ py ": "
                        ++ message r |}
     else r,
     calls ++ [(system_prompt acc, chunk)]).
Proof.
  intros r Hr.
  cbn [GenericDataExtractor.process_chunks
         GenericDataExtractor.extract_structured].
  fold r.
  apply pystr_eqb_neq in Hr. rewrite Hr. now destruct (truthy acc).
Qed.

(** The run of [process_file] in which the chunks before chunk [i]
    (counted from 1) succeed with the data [ds] and chunk [i] fails. *)
Lemma process_file_failing_chunk (fuel : nat) (text : pystr)
      (chunks : list pystr) (i : nat) (ds : list json) :
  py_strip text <> [] ->
  chunk_text fuel text = Some chunks ->
  1 <= i <= length chunks ->
  length ds = i - 1 ->
  (forall k, k < i - 1 ->
     status (chunk_result chunks ds k) = py "success"
     /\ data (chunk_result chunks ds k) = Some (nth k ds JNull)) ->
  status (chunk_result chunks ds (i - 1)) <> py "success" ->
  exists calls,
    length calls = i
    /\ process_file fuel (Returned text)
       = Some (if truthy (acc_from JNull ds (i - 1)) then
                 {| status := py "failed";
                    data := Some (acc_from JNull ds (i - 1));
                    message := py "Partial failure at chunk "
                                  ++ str_of_nat i ++ py "/"
                                  ++ str_of_nat (length chunks) ++ py ": "
                                  ++ message (chunk_result chunks ds (i - 1))
                 |}
               else chunk_result chunks ds (i - 1), calls).
Proof.
  intros Htext Hchunks Hi Hds Hok Hfail.
  unfold GenericDataExtractor.process_file.
  destruct (py_strip text); [now elim Htext|].
  rewrite Hchunks.
  destruct (@process_chunks_successes ds chunks [] 1 (length chunks) JNull)
    as [calls [Hl Heq]].
  - intros k Hk. simpl. apply Hok. lia.
  - lia.
  - rewrite Heq. rewrite Hds in *. simpl in Hl.
    destruct (skipn (i - 1) chunks) as [|c rest] eqn:Hskip.
    + apply (f_equal (@length pystr)) in Hskip.
      rewrite length_skipn in Hskip. simpl in Hskip. lia.
    + assert (Hc : nth (i - 1) chunks [] = c).
      { rewrite <- (firstn_skipn (i - 1) chunks) at 1.
        rewrite app_nth2; rewrite length_firstn;
          [|lia]. rewrite Hskip.
        now replace (i - 1 - Nat.min (i - 1) (length chunks)) with 0
          by lia. }
      exists (calls ++ [(system_prompt (acc_from JNull ds (i - 1)), c)]).
      split; [rewrite length_app; simpl; lia|].
      unfold GenericDataExtractor.chunk_result in *. rewrite Hc in *.
      rewrite process_chunks_failure.
      * rewrite Hl. now replace (1 + (i - 1)) with i by lia.
      * now rewrite Hl.
Qed.

(** C1, amended: when the text splits into [N >= 2] chunks, chunks
    [1..i-1] ([2 <= i <= N]) succeed, the data of chunk [i-1] is not empty
    and chunk [i] fails, [process_file] returns status "failed", the data
    of chunk [i-1], and the message "Partial failure at chunk i/N: "
    followed by the message of the failed result; [i] model calls were
    made. *)
Theorem process_file_partial_failure (fuel : nat) (text : pystr)
        (chunks : list pystr) (i : nat) (ds : list json) :
  py_strip text <> [] ->
  chunk_text fuel text = Some chunks ->
  2 <= i <= length chunks ->
  length ds = i - 1 ->
  (forall k, k < i - 1 ->
     status (chunk_result chunks ds k) = py "success"
     /\ data (chunk_result chunks ds k) = Some (nth k ds JNull)) ->
  status (chunk_result chunks ds (i - 1)) <> py "success" ->
  truthy (nth (i - 2) ds JNull) = true ->
  exists calls,
    length calls = i
    /\ process_file fuel (Returned text)
       = Some ({| status := py "failed";
                  data := Some (nth (i - 2) ds JNull);
                  message := py "Partial failure at chunk "
                                ++ str_of_nat i ++ py "/"
                                ++ str_of_nat (length chunks) ++ py ": "
                                ++ message (chunk_result chunks ds (i - 1))
               |}, calls).
Proof.
  intros Htext Hchunks Hi Hds Hok Hfail Htrue.
  destruct (@process_file_failing_chunk fuel text chunks i ds)
    as [calls [Hl Heq]]; try assumption; [lia|].
  exists calls. split; [assumption|]. rewrite Heq.
  replace (i - 1) with (S (i - 2)) by lia. simpl acc_from.
  now rewrite Htrue.
Qed.

(** C10: let chunks [1..i-1] succeed with the data [ds] and chunk [i]
    fail ([1 <= i <= N]). The result of [process_file] carries data only
    if the accumulated data at chunk [i] is truthy; and when every earlier
    chunk returned the empty dict (or there is none, [i = 1]), the result
    is the failed result of chunk [i] itself, which has no "data" key. *)
Theorem process_file_failure_without_data (fuel : nat) (text : pystr)
        (chunks : list pystr) (i : nat) (ds : list json) :
  py_strip text <> [] ->
  chunk_text fuel text = Some chunks ->
  1 <= i <= length chunks ->
  length ds = i - 1 ->
  (forall k, k < i - 1 ->
     status (chunk_result chunks ds k) = py "success"
     /\ data (chunk_result chunks ds k) = Some (nth k ds JNull)) ->
  status (chunk_result chunks ds (i - 1)) <> py "success" ->
  exists res calls,
    process_file fuel (Returned text) = Some (res, calls)
    /\ length calls = i
    /\ (data res <> None -> truthy (acc_from JNull ds (i - 1)) = true)
    /\ ((forall d, In d ds -> d = JDict []) ->
        res = chunk_result chunks ds (i - 1) /\ data res = None).
Proof.
  intros Htext Hchunks Hi Hds Hok Hfail.
  destruct (@process_file_failing_chunk fuel text chunks i ds)
    as [calls [Hl Heq]]; try assumption.
  pose proof (extract_result_no_data _ _ _ Hfail) as Hnone.
  fold (chunk_result chunks ds (i - 1)) in Hnone.
  eexists. exists calls. split; [exact Heq|]. split; [assumption|].
  destruct (truthy (acc_from JNull ds (i - 1))) eqn:Ht; split.
  - reflexivity.
  - intros Hempty. exfalso.
    destruct (i - 1) as [|j] eqn:Hj; [discriminate Ht|]. simpl in Ht.
    rewrite (Hempty (nth j ds JNull)) in Ht; [discriminate|].
    apply nth_In. lia.
  - intros H. now elim H.
  - now intros _.
Qed.

(** *** What every run returns *)

Lemma extract_result_cases n text previous_data :
  let r := extract_result n text previous_data in
  (status r = py "success"
   /\ exists dump, data r = Some (sanitize_data (JDict dump)))
  \/ (status r = py "failed" /\ data r = None).
Proof.
  unfold GenericDataExtractor.extract_result.
  destruct (client n (system_prompt previous_data) text)
    as [e | [[|c r]|] [dump|]]; simpl; eauto.
Qed.

Lemma process_chunks_result (chunks : list pystr) :
  forall (calls : list Call) (idx num_chunks : nat) (acc : json)
         (res : Result) (calls' : list Call),
    clean_json acc ->
    process_chunks calls chunks idx num_chunks acc = (res, calls') ->
    (status res = py "success" \/ status res = py "failed")
    /\ (status res = py "success" -> data res <> None)
    /\ (forall d, data res = Some d -> clean_json d).
Proof.
  induction chunks as [|c chunks IH];
    intros calls idx num_chunks acc res calls' Hacc H.
  - injection H as <- <-. simpl. repeat split; auto; try discriminate.
    now intros d [= <-].
  - cbn [GenericDataExtractor.process_chunks
           GenericDataExtractor.extract_structured] in H.
    destruct (extract_result_cases (length calls) c acc)
      as [[Hs [dump Hd]] | [Hs Hd]]; rewrite Hs, Hd in H.
    + rewrite pystr_eqb_refl in H. apply IH in H; [exact H|].
      apply sanitize_data_clean.
    + change (pystr_eqb (py "failed") (py "success")) with false in H.
      destruct (truthy acc); injection H as <- <-; simpl.
      * repeat split; auto; try discriminate. now intros d [= <-].
      * rewrite Hs, Hd. repeat split; auto; discriminate.
Qed.

(** X7: whatever [process_file] returns has status "success" or "failed",
    and a result with status "success" always has data. *)
Theorem process_file_status (fuel : nat) (extracted : Outcome pystr)
        (res : Result) (calls : list Call) :
  process_file fuel extracted = Some (res, calls) ->
  (status res = py "success" \/ status res = py "failed")
  /\ (status res = py "success" -> exists d, data res = Some d).
Proof.
  unfold GenericDataExtractor.process_file. intro H.
  assert (Hfail : forall m : pystr,
            Some ({| status := py "failed"; data := None; message := m |},
                  @nil Call) = Some (res, calls) ->
            (status res = py "success" \/ status res = py "failed")
            /\ (status res = py "success" -> exists d, data res = Some d)).
  { intros m [= <- <-]. simpl. split; [auto|]. intro E. discriminate E. }
  destruct extracted as [text|e]; [|now apply (Hfail e)].
  destruct (py_strip text); [now apply (Hfail (py "No text content found"))|].
  destruct (chunk_text fuel text) as [chunks|]; [|discriminate].
  injection H as H.
  apply process_chunks_result in H; [|constructor].
  destruct H as [H1 [H2 _]]. split; [exact H1|].
  intro E. specialize (H2 E). destruct (data res); [eauto | now elim H2].
Qed.

(** X9: the data [process_file] returns, on success and on partial
    failure, holds no character that [sanitize_data] removes in any of its
    string leaves. *)
Theorem process_file_data_clean (fuel : nat) (extracted : Outcome pystr)
        (res : Result) (calls : list Call) (d : json) :
  process_file fuel extracted = Some (res, calls) ->
  data res = Some d ->
  clean_json d.
Proof.
  unfold GenericDataExtractor.process_file. intros H Hd.
  destruct extracted as [text|e];
    [|injection H as <- <-; discriminate Hd].
  destruct (py_strip text); [injection H as <- <-; discriminate Hd|].
  destruct (chunk_text fuel text) as [chunks|]; [|discriminate].
  injection H as H.
  apply process_chunks_result in H; [|constructor].
  now apply H.
Qed.

Lemma process_chunks_calls (chunks : list pystr) :
  forall (calls : list Call) (idx num_chunks : nat) (acc : json)
         (res : Result) (calls' : list Call),
    process_chunks calls chunks idx num_chunks acc = (res, calls') ->
    exists new,
      calls' = calls ++ new
      /\ List.map snd new = firstn (length new) chunks
      /\ length new <= length chunks
      /\ (status res = py "success" -> length new = length chunks)
      /\ (forall e, hd_error new = Some e -> fst e = system_prompt acc).
Proof.
  induction chunks as [|c chunks IH];
    intros calls idx num_chunks acc res calls' H.
  - injection H as <- <-. exists []. rewrite app_nil_r.
    repeat split; auto. discriminate.
  - cbn [GenericDataExtractor.process_chunks
           GenericDataExtractor.extract_structured] in H.
    assert (Hone : forall r : Result,
              status r <> py "success" ->
              (r, calls ++ [(system_prompt acc, c)]) = (res, calls') ->
              exists new,
                calls' = calls ++ new
                /\ List.map snd new = firstn (length new) (c :: chunks)
                /\ length new <= length (c :: chunks)
                /\ (status res = py "success" ->
                    length new = length (c :: chunks))
                /\ (forall e, hd_error new = Some e ->
                              fst e = system_prompt acc)).
    { intros r Hr [= <- <-]. exists [(system_prompt acc, c)].
      simpl. repeat split; auto; try lia.
      - intro E. now elim Hr.
      - now intros e [= <-]. }
    destruct (pystr_eqb (status (extract_result (length calls) c acc))
                        (py "success")) eqn:Hs.
    + destruct (data (extract_result (length calls) c acc)) as [d|].
      * apply IH in H. destruct H as [new [-> [Hm [Hl [Hsucc _]]]]].
        exists ((system_prompt acc, c) :: new).
        rewrite <- app_assoc.
        split; [reflexivity|]. split; [simpl; now rewrite Hm|].
        split; [simpl; lia|].
        split; [intro E; simpl; now rewrite (Hsucc E)|].
        now intros e [= <-].
      * eapply Hone; [|exact H]. discriminate.
    + apply pystr_eqb_neq in Hs.
      destruct (truthy acc); [|apply (Hone _ Hs H)].
      eapply Hone; [|exact H]. discriminate.
Qed.

(** The calls of the loop one by one: [prevs] holds the previous data each
    call was made with. *)
Lemma process_chunks_trace (chunks : list pystr) :
  forall (calls : list Call) (idx num_chunks : nat) (acc : json)
         (res : Result) (calls' : list Call),
    process_chunks calls chunks idx num_chunks acc = (res, calls') ->
    exists (new : list Call) (prevs : list json),
      calls' = calls ++ new
      /\ length prevs = length new
      /\ (0 < length chunks -> 0 < length new)
      /\ (0 < length new -> nth 0 prevs JNull = acc)
      /\ forall k, k < length new ->
           let r := extract_result (length calls + k) (nth k chunks [])
                                   (nth k prevs JNull) in
           nth k new ([], [])
           = (system_prompt (nth k prevs JNull), nth k chunks [])
           /\ (status r <> py "success" ->
               S k = length new /\ status res = py "failed")
           /\ (status r = py "success" -> S k < length new ->
               data r = Some (nth (S k) prevs JNull))
           /\ (status r = py "success" -> S k < length chunks ->
               S k < length new).
Proof.
  induction chunks as [|c chunks IH];
    intros calls idx num_chunks acc res calls' H.
  - injection H as <- <-. exists [], []. rewrite app_nil_r. simpl.
    repeat split; lia.
  - cbn [GenericDataExtractor.process_chunks
           GenericDataExtractor.extract_structured] in H.
    destruct (extract_result_cases (length calls) c acc)
      as [[Hs [dump Hd]] | [Hs Hd]]; rewrite Hs, Hd in H.
    + rewrite pystr_eqb_refl in H. apply IH in H.
      destruct H as [new [prevs [-> [Hl [Hne [Hhd Hk]]]]]].
      exists ((system_prompt acc, c) :: new), (acc :: prevs).
      rewrite <- app_assoc.
      split; [reflexivity|]. split; [simpl; now rewrite Hl|].
      split; [simpl; lia|]. split; [reflexivity|].
      intros [|k] Hlt.
      * rewrite Nat.add_0_r. cbn [nth]. cbv zeta.
        split; [reflexivity|]. split; [intro E; now elim E|].
        split.
        -- intros _ Hlt'. rewrite Hd. f_equal. symmetry. apply Hhd.
           simpl in Hlt'. lia.
        -- intros _ Hlt'. simpl in *. lia.
      * cbn [nth length] in *.
        replace (length calls + S k)
          with (length (calls ++ [(system_prompt acc, c)]) + k)
          by (rewrite length_app; simpl; lia).
        destruct (Hk k ltac:(lia)) as [H1 [H2 [H3 H4]]]. cbv zeta.
        split; [exact H1|]. split.
        -- intro E. destruct (H2 E) as [E1 E2]. split; [lia | exact E2].
        -- split.
           ++ intros E Hlt'. apply (H3 E). lia.
           ++ intros E Hlt'. specialize (H4 E). lia.
    + change (pystr_eqb (py "failed") (py "success")) with false in H.
      assert (Hres : calls' = calls ++ [(system_prompt acc, c)]
                     /\ status res = py "failed").
      { destruct (truthy acc); injection H as <- <-; split;
          try reflexivity. exact Hs. }
      destruct Hres as [-> Hres].
      exists [(system_prompt acc, c)], [acc]. simpl.
      split; [reflexivity|]. split; [reflexivity|].
      split; [lia|]. split; [reflexivity|].
      intros [|k] Hlt; [|lia]. rewrite Nat.add_0_r.
      split; [reflexivity|]. split; [auto|].
      split; intros E; rewrite Hs in E; discriminate E.
Qed.

(** X8: [process_file] calls the model on the chunks in order, once per
    chunk, and stops at the first failure. The user messages of the calls
    made are a prefix of the chunk list, the whole list when the result is
    a success, and the first call carries no previous data. Call [k] is
    made on chunk [k] with the previous data [prevs[k]]; when what
    [extract_structured] returns for it is a failure, it is the last call
    and the result is "failed"; when it is a success and a chunk is left,
    the next call is made, with the data of this one. *)
Theorem process_file_calls (fuel : nat) (text : pystr)
        (chunks : list pystr) (res : Result) (calls : list Call) :
  chunk_text fuel text = Some chunks ->
  process_file fuel (Returned text) = Some (res, calls) ->
  length calls <= length chunks
  /\ List.map snd calls = firstn (length calls) chunks
  /\ (status res = py "success" -> length calls = length chunks)
  /\ (forall e, hd_error calls = Some e -> fst e = system_prompt JNull)
  /\ exists prevs : list json,
       length prevs = length calls
       /\ forall k, k < length calls ->
            let r := extract_result k (nth k chunks [])
                                    (nth k prevs JNull) in
            nth k calls ([], [])
            = (system_prompt (nth k prevs JNull), nth k chunks [])
            /\ (status r <> py "success" ->
                S k = length calls /\ status res = py "failed")
            /\ (status r = py "success" -> S k < length calls ->
                data r = Some (nth (S k) prevs JNull))
            /\ (status r = py "success" -> S k < length chunks ->
                S k < length calls).
Proof.
  unfold GenericDataExtractor.process_file. intros Hc H.
  destruct (py_strip text).
  - injection H as <- <-. simpl.
    repeat split; auto; try lia; try discriminate.
    exists []. split; [reflexivity|]. intros k Hk. lia.
  - rewrite Hc in H. injection H as H.
    pose proof (process_chunks_trace _ _ _ _ _ H) as Ht.
    apply process_chunks_calls in H.
    destruct H as [new [-> [Hm [Hl [Hs Hh]]]]].
    destruct Ht as [new' [prevs [E [Hp [_ [_ Hk]]]]]].
    simpl in E. subst new'. simpl.
    repeat split; auto.
    exists prevs. split; [exact Hp|]. exact Hk.
Qed.

Lemma acc_from_last (acc : json) (ds : list json) :
  acc_from acc ds (length ds) = last ds acc.
Proof.
  destruct ds as [|d ds]; [reflexivity|]. cbn [length acc_from].
  revert d. induction ds as [|d' ds IH]; intro d; [reflexivity|].
  change (nth (length ds) (d' :: ds) JNull = last (d' :: ds) acc).
  apply IH.
Qed.

(** X6: when every chunk of a non-blank text succeeds, [process_file]
    returns status "success", the data of the last chunk alone (each chunk
    replaces what was accumulated), and the message "All N chunks
    processed", after one model call per chunk. *)
Theorem process_file_all_succeed (fuel : nat) (text : pystr)
        (chunks : list pystr) (ds : list json) :
  py_strip text <> [] ->
  chunk_text fuel text = Some chunks ->
  length ds = length chunks ->
  (forall k, k < length chunks ->
     status (chunk_result chunks ds k) = py "success"
     /\ data (chunk_result chunks ds k) = Some (nth k ds JNull)) ->
  exists calls,
    length calls = length chunks
    /\ process_file fuel (Returned text)
       = Some ({| status := py "success";
                  data := Some (last ds JNull);
                  message := py "All " ++ str_of_nat (length chunks)
                                ++ py " chunks processed" |}, calls).
Proof.
  intros Htext Hchunks Hds Hok.
  unfold GenericDataExtractor.process_file.
  destruct (py_strip text); [now elim Htext|]. rewrite Hchunks.
  destruct (@process_chunks_successes ds chunks [] 1 (length chunks) JNull)
    as [calls [Hl Heq]].
  - intros k Hk. simpl. apply Hok. lia.
  - lia.
  - exists calls. split; [simpl in Hl; lia|].
    rewrite Heq, acc_from_last, Hds, skipn_all. reflexivity.
Qed.

End ExtractorFacts.

(** ** Runs on a small instance *)

Example chunk_text_abcdefg :
  chunk_text char_encode char_decode 3 1 7 (py "abcdefg")
  = Some [py "abc"; py "cde"; py "efg"].
Proof. reflexivity. Qed.

Example window_loop_abcdefg :
  window_loop 3 1 7 7 0 = Some [(0, 3); (2, 5); (4, 7)]%Z.
Proof. reflexivity. Qed.

Lemma chunk_text_within_budget_witness :
  chunk_text char_encode char_decode 5 1 0 (py "abc") = Some [py "abc"].
Proof.
  apply (@chunk_text_within_budget N char_encode char_decode 5 1 0 (py "abc")).
  vm_compute. discriminate.
Defined.

Lemma chunk_text_windows_witness :
  exists ws : list (Z * Z),
    chunk_text char_encode char_decode 3 1 7 (py "abcdefg")
    = Some (List.map (window_text char_decode (py "abcdefg")) ws)
    /\ snd (last ws (0, 0)%Z) = 7%Z.
Proof.
  destruct (@chunk_text_windows N char_encode char_decode 3 1 (py "abcdefg"))
    as [ws [Hrun [_ [_ [_ [Hend _]]]]]].
  - vm_compute. reflexivity.
  - lia.
  - exists ws. split; [apply Hrun; vm_compute; lia | exact Hend].
Defined.

Lemma chunk_text_terminates_witness :
  exists chunks : list pystr,
    forall fuel, 7 <= fuel ->
      chunk_text char_encode char_decode 3 1 fuel (py "abcdefg")
      = Some chunks.
Proof.
  destruct (@chunk_text_terminates N char_encode char_decode 3 1
              (py "abcdefg")) as [chunks [Hrun _]].
  - lia.
  - exists chunks. exact Hrun.
Defined.

Lemma process_file_no_text_witness :
  process_file char_encode char_decode 3 1 no_dumps title_then_timeout 0
               (Returned [32; 10; 9; 12288]%N)
  = Some ({| status := py "failed"; data := None;
             message := py "No text content found" |}, []).
Proof.
  apply (@process_file_no_text N char_encode char_decode 3 1 no_dumps
           title_then_timeout 0 [32; 10; 9; 12288]%N).
  reflexivity.
Defined.

(** Scenario A of the specification: one chunk, the model call succeeds. *)
Example process_file_scenario_A :
  process_file char_encode char_decode 5 1 no_dumps title_always 0
               (Returned (py "abc"))
  = Some ({| status := py "success";
             data := Some (JDict [(py "title", JStr (py "AB"))]);
             message := py "All 1 chunks processed" |},
          [(system_prompt no_dumps JNull, py "abc")]).
Proof. reflexivity. Qed.

(** Scenario B of the specification: three chunks, the second fails after
    the first succeeded. *)
Example process_file_scenario_B :
  process_file char_encode char_decode 2 0 no_dumps title_then_timeout 5
               (Returned (py "abcde"))
  = Some ({| status := py "failed";
             data := Some (JDict [(py "title", JStr (py "AB"))]);
             message :=
               py "Partial failure at chunk 2/3: Request timed out." |},
          [(system_prompt no_dumps JNull, py "ab");
           (system_prompt no_dumps (JDict [(py "title", JStr (py "AB"))]),
            py "cd")]).
Proof. reflexivity. Qed.

Lemma process_file_partial_failure_witness :
  exists calls,
    length calls = 2
    /\ process_file char_encode char_decode 2 0 no_dumps title_then_timeout 5
                    (Returned (py "abcde"))
       = Some ({| status := py "failed";
                  data := Some (JDict [(py "title", JStr (py "AB"))]);
                  message :=
                    py "Partial failure at chunk 2/3: Request timed out." |},
               calls).
Proof.
  apply (@process_file_partial_failure N char_encode char_decode 2 0 no_dumps
           title_then_timeout 5 (py "abcde") [py "ab"; py "cd"; py "e"] 2
           [JDict [(py "title", JStr (py "AB"))]]).
  - vm_compute. discriminate.
  - reflexivity.
  - simpl. lia.
  - reflexivity.
  - intros k Hk. assert (k = 0) as -> by lia. now split.
  - vm_compute. discriminate.
  - reflexivity.
Defined.

(** The empty dict counts as no data: the failure of chunk 2 comes back as
    it is, without the "data" key and without the chunk index. *)
Example process_file_empty_then_refusal :
  process_file char_encode char_decode 2 0 no_dumps empty_then_refusal 3
               (Returned (py "abc"))
  = Some ({| status := py "failed"; data := None;
             message := py "Refusal: no" |},
          [(system_prompt no_dumps JNull, py "ab");
           (system_prompt no_dumps JNull, py "c")]).
Proof. reflexivity. Qed.

Lemma process_file_failure_without_data_witness :
  exists res calls,
    process_file char_encode char_decode 2 0 no_dumps empty_then_refusal 3
                 (Returned (py "abc")) = Some (res, calls)
    /\ length calls = 2
    /\ res = {| status := py "failed"; data := None;
                message := py "Refusal: no" |}.
Proof.
  destruct (@process_file_failure_without_data N char_encode char_decode 2 0
              no_dumps empty_then_refusal 3 (py "abc") [py "ab"; py "c"] 2
              [JDict []]) as [res [calls [Hrun [Hlen [_ Hempty]]]]].
  - vm_compute. discriminate.
  - reflexivity.
  - simpl. lia.
  - reflexivity.
  - intros k Hk. assert (k = 0) as -> by lia. now split.
  - vm_compute. discriminate.
  - exists res, calls. split; [exact Hrun|]. split; [exact Hlen|].
    destruct Hempty as [Hres _]; [|exact Hres].
    intros d [<-|[]]. reflexivity.
Defined.

(** C1 fails as stated: on the text "abc" with [max_tokens = 2] and
    [token_overlap = 0] (chunks "ab" and "c"), chunk 1 succeeds with the
    empty dict and chunk 2 is refused; the result has no data and its
    message is the refusal alone. *)
Lemma partial_failure_claim_refuted : ~ partial_failure_claim.
Proof.
  intro claim.
  destruct (claim N char_encode char_decode 2%Z 0%Z no_dumps
                  empty_then_refusal 3 (py "abc") [py "ab"; py "c"] 2
                  [JDict []]) as [calls Hrun].
  - vm_compute. discriminate.
  - reflexivity.
  - simpl. lia.
  - reflexivity.
  - intros k Hk. assert (k = 0) as -> by lia. now split.
  - vm_compute. discriminate.
  - vm_compute in Hrun. discriminate Hrun.
Qed.

(** ** Further runs on the small instance *)

Lemma chunk_text_window_sizes_witness :
  exists ws : list (Z * Z),
    [py "abc"; py "cde"; py "efg"]
    = List.map (window_text char_decode (char_encode (py "abcdefg"))) ws
    /\ forall w, In w ws ->
         (1 <= Z.of_nat (length (py_slice (char_encode (py "abcdefg"))
                                         (fst w) (snd w))) <= 3)%Z.
Proof.
  apply (@chunk_text_window_sizes N char_encode char_decode 3 1 7
           (py "abcdefg") [py "abc"; py "cde"; py "efg"]).
  - vm_compute. reflexivity.
  - lia.
  - reflexivity.
Defined.

Lemma chunk_text_count_witness :
  (Z.of_nat (length [py "abc"; py "cde"; py "efg"])
   = 1 + (7 - 1 - 1) / (3 - 1))%Z.
Proof.
  apply (@chunk_text_count N char_encode char_decode 3 1 7 (py "abcdefg")
           [py "abc"; py "cde"; py "efg"]).
  - vm_compute. reflexivity.
  - lia.
  - reflexivity.
Defined.

Lemma chunk_text_overlap_tokens_witness :
  exists ws : list (Z * Z),
    [py "abc"; py "cde"; py "efg"]
    = List.map (window_text char_decode (char_encode (py "abcdefg"))) ws
    /\ firstn 1 (py_slice (char_encode (py "abcdefg"))
                          (fst (nth 1 ws (0, 0)%Z)) (snd (nth 1 ws (0, 0)%Z)))
       = skipn 2 (py_slice (char_encode (py "abcdefg"))
                           (fst (nth 0 ws (0, 0)%Z))
                           (snd (nth 0 ws (0, 0)%Z))).
Proof.
  destruct (@chunk_text_overlap_tokens N char_encode char_decode 3 1 7
              (py "abcdefg") [py "abc"; py "cde"; py "efg"])
    as [ws [Hc Hov]].
  - vm_compute. reflexivity.
  - lia.
  - reflexivity.
  - exists ws. split; [exact Hc|].
    apply (f_equal (@length pystr)) in Hc. rewrite length_map in Hc.
    simpl in Hc. apply (Hov 0). lia.
Defined.

Lemma chunk_text_stitch_witness :
  exists ws : list (Z * Z),
    [py "abc"; py "cde"; py "efg"]
    = List.map (window_text char_decode (char_encode (py "abcdefg"))) ws
    /\ stitch 1
         (List.map (fun w => py_slice (char_encode (py "abcdefg"))
                                      (fst w) (snd w)) ws)
       = char_encode (py "abcdefg").
Proof.
  apply (@chunk_text_stitch N char_encode char_decode 3 1 7
           (py "abcdefg") [py "abc"; py "cde"; py "efg"]).
  - vm_compute. reflexivity.
  - lia.
  - reflexivity.
Defined.

Lemma chunk_text_overlap_too_large_witness :
  chunk_text char_encode char_decode 3 5 100 (py "abcdefg") = None.
Proof.
  apply (@chunk_text_overlap_too_large N char_encode char_decode 3 5
           (py "abcdefg")).
  - lia.
  - vm_compute. split; [discriminate | reflexivity].
Defined.

Lemma process_file_all_succeed_witness :
  exists calls,
    length calls = 3
    /\ process_file char_encode char_decode 2 0 no_dumps title_always 5
                    (Returned (py "abcde"))
       = Some ({| status := py "success";
                  data := Some (JDict [(py "title", JStr (py "AB"))]);
                  message := py "All 3 chunks processed" |}, calls).
Proof.
  apply (@process_file_all_succeed N char_encode char_decode 2 0 no_dumps
           title_always 5 (py "abcde") [py "ab"; py "cd"; py "e"]
           [JDict [(py "title", JStr (py "AB"))];
            JDict [(py "title", JStr (py "AB"))];
            JDict [(py "title", JStr (py "AB"))]]).
  - vm_compute. discriminate.
  - reflexivity.
  - reflexivity.
  - intros k Hk. simpl in Hk.
    destruct k as [|[|[|k]]]; [now split | now split | now split | lia].
Defined.

Lemma process_file_status_witness :
  (py "failed" = py "success" \/ py "failed" = py "failed")
  /\ (py "failed" = py "success" ->
      exists d, Some (JDict [(py "title", JStr (py "AB"))]) = Some d).
Proof.
  exact (@process_file_status N char_encode char_decode 2 0 no_dumps
           title_then_timeout 5 (Returned (py "abcde")) _ _ eq_refl).
Defined.

Lemma process_file_data_clean_witness :
  clean_json (JDict [(py "title", JStr (py "AB"))]).
Proof.
  exact (@process_file_data_clean N char_encode char_decode 2 0 no_dumps
           title_then_timeout 5 (Returned (py "abcde")) _ _ _ eq_refl
           eq_refl).
Defined.

Lemma process_file_calls_witness :
  List.map snd [(system_prompt no_dumps JNull, py "ab");
                (system_prompt no_dumps
                   (JDict [(py "title", JStr (py "AB"))]), py "cd")]
  = firstn 2 [py "ab"; py "cd"; py "e"].
Proof.
  exact (proj1 (proj2
    (@process_file_calls N char_encode char_decode 2 0 no_dumps
       title_then_timeout 5 (py "abcde") [py "ab"; py "cd"; py "e"] _ _
       eq_refl eq_refl))).
Defined.

End GenericDataExtractorFacts.

(** * Properties of DynamicModelBuilder *)

Module DynamicModelBuilderFacts.

Import DynamicModelBuilder.

(** ** The recursion is well founded *)

Lemma json_depth_item (d : list (pystr * json)) (k : pystr) (v : json) :
  In (k, v) d -> json_depth v < json_depth (JDict d).
Proof.
  simpl. induction d as [|kv d IH]; simpl; [tauto|].
  intros [->|H]; simpl; [lia|]. specialize (IH H). lia.
Qed.

(** A truthy value read with a falsy default lies inside the dict. *)
Lemma dict_get_depth (x : json) (key : pystr) (dflt v : json) :
  dict_get x key dflt = Returned v ->
  truthy dflt = false -> truthy v = true ->
  json_depth v < json_depth x.
Proof.
  destruct x as [| | | | | |d]; try discriminate. unfold dict_get.
  destruct (assoc key d) as [w|] eqn:E; intros [= <-] Hd Hv.
  - apply json_depth_item with key. now apply assoc_In.
  - congruence.
Qed.

Lemma for_each_ext_in (A B : Type) (f g : A -> Outcome B) (l : list A) :
  (forall x, In x l -> f x = g x) -> for_each f l = for_each g l.
Proof.
  induction l as [|x l IH]; intro H; simpl; [reflexivity|].
  rewrite (H x) by now left.
  rewrite IH; [reflexivity|]. intros y Hy. apply H. now right.
Qed.

Lemma bind_returned (A B : Type) (o : Outcome A) (k : A -> Outcome B)
      (b : B) :
  bind o k = Returned b -> exists a, o = Returned a /\ k a = Returned b.
Proof. destruct o as [a|e]; simpl; [eauto | discriminate]. Qed.

Lemma for_each_returned (A B : Type) (f : A -> Outcome B) (l : list A) :
  forall ys, for_each f l = Returned ys ->
             Forall2 (fun x y => f x = Returned y) l ys.
Proof.
  induction l as [|x l IH]; simpl; intros ys H.
  - injection H as <-. constructor.
  - apply bind_returned in H. destruct H as [y [Hy H]].
    apply bind_returned in H. destruct H as [ys' [Hys H]].
    injection H as <-. constructor; auto.
Qed.

Lemma for_each_total (A B : Type) (f : A -> Outcome B) (l : list A) :
  (forall x, In x l -> exists y, f x = Returned y) ->
  exists ys, for_each f l = Returned ys.
Proof.
  induction l as [|x l IH]; intro H; simpl; [eauto|].
  destruct (H x) as [y Hy]; [now left|]. rewrite Hy. simpl.
  destruct IH as [ys Hys]; [intros z Hz; apply H; now right|].
  rewrite Hys. simpl. eauto.
Qed.

Ltac unbind H :=
  let a := fresh "a" in
  let Ha := fresh "Ha" in
  apply bind_returned in H; destruct H as [a [Ha H]].

(** The fields built by either loop: each is built from a declared
    property, under its name, required, of the type [rec] returns and with
    its description. *)
Lemma fields_declared (rec : json -> pystr -> Outcome PyType)
      (hint : pystr -> pystr) (props : list (pystr * json)) :
  forall fields,
    for_each
      (fun p =>
         n_type <- rec (snd p) (hint (fst p)) ;;
         n_desc <- dict_get (snd p) (py "description") (JStr []) ;;
         Returned (fst p, (n_type, Field Ellipsis n_desc)))
      props = Returned fields ->
    forall f, In f fields ->
      required f = true
      /\ exists node,
           In (fst f, node) props
           /\ rec node (hint (fst f)) = Returned (fst (snd f))
           /\ dict_get node (py "description") (JStr [])
              = Returned (description (snd (snd f))).
Proof.
  intros fields H. apply for_each_returned in H.
  induction H as [|p f0 props fields Hf _ IH]; intros f Hin; [destruct Hin|].
  destruct Hin as [<-|Hin].
  - unbind Hf. unbind Hf. injection Hf as <-. simpl. split; [reflexivity|].
    exists (snd p). rewrite <- surjective_pairing. auto.
  - destruct (IH f Hin) as [Hr [node [Hn Hrest]]].
    split; [exact Hr|]. exists node. split; [now right | exact Hrest].
Qed.

Section CompilerFacts.
Variable capitalize : pystr -> pystr.
Variable create_model :
  pystr -> ConfigDict -> list (pystr * (PyType * FieldInfo)) ->
  Outcome PyType.

Local Abbreviation resolve_body :=
  (DynamicModelBuilder.resolve_body capitalize create_model).
Local Abbreviation resolve_within :=
  (DynamicModelBuilder.resolve_within capitalize create_model).
Local Abbreviation _resolve_python_type :=
  (DynamicModelBuilder._resolve_python_type capitalize create_model).
Local Abbreviation build_model_from_schema :=
  (DynamicModelBuilder.build_model_from_schema capitalize create_model).
Local Abbreviation create_model_sound :=
  (DynamicModelBuilder.create_model_sound create_model).
Local Abbreviation create_model_accepts :=
  (DynamicModelBuilder.create_model_accepts create_model).

Lemma resolve_body_ext (rec1 rec2 : json -> pystr -> Outcome PyType)
      (field_info : json) (hint : pystr) :
  (forall x h, json_depth x < json_depth field_info -> rec1 x h = rec2 x h) ->
  resolve_body rec1 field_info hint = resolve_body rec2 field_info hint.
Proof.
  intro H. unfold DynamicModelBuilder.resolve_body.
  destruct (dict_get field_info (py "type") (JStr (py "string")))
    as [json_type|e]; simpl; [|reflexivity].
  destruct (eq_str json_type (py "array")).
  - destruct (dict_get field_info (py "items") (JDict []))
      as [items|e] eqn:Hitems; simpl; [|reflexivity].
    destruct (truthy items) eqn:Ht; simpl; [|reflexivity].
    rewrite (H items); [reflexivity|].
    now apply (@dict_get_depth _ _ _ _ Hitems).
  - destruct (eq_str json_type (py "object")); [|reflexivity].
    destruct (dict_get field_info (py "properties") (JDict []))
      as [np|e] eqn:Hnp; simpl; [|reflexivity].
    destruct (truthy np) eqn:Ht; simpl; [|reflexivity].
    pose proof (@dict_get_depth _ _ _ _ Hnp eq_refl Ht) as Hdepth.
    destruct np as [| | | | | |props]; simpl; try reflexivity.
    erewrite for_each_ext_in; [reflexivity|].
    intros [n_name n_info] Hin. simpl.
    rewrite (H n_info); [reflexivity|].
    pose proof (@json_depth_item _ _ _ Hin) as Hlt. lia.
Qed.

Lemma resolve_within_stable (n : nat) :
  forall (m : nat) (field_info : json) (hint : pystr),
    json_depth field_info < n -> json_depth field_info < m ->
    resolve_within n field_info hint = resolve_within m field_info hint.
Proof.
  induction n as [|n IH]; intros m field_info hint Hn Hm; [lia|].
  destruct m as [|m]; [lia|]. simpl.
  apply resolve_body_ext. intros x h Hx. apply IH; lia.
Qed.

(** The defining equation of [_resolve_python_type]: its body, with itself
    for the recursive calls. *)
Lemma _resolve_python_type_eq (field_info : json) (hint : pystr) :
  _resolve_python_type field_info hint
  = resolve_body _resolve_python_type field_info hint.
Proof.
  unfold DynamicModelBuilder._resolve_python_type at 1. simpl.
  apply resolve_body_ext. intros x h Hx.
  apply resolve_within_stable; lia.
Qed.

(** ** Unrecognised and missing types *)

(** C3, amended: a field node whose [type] is present, is a string, number,
    boolean or null, and is none of string, integer, number, boolean,
    object, array resolves to [Any]; a field node without [type] resolves
    to [str], the default of [field_info.get("type", "string")]. *)
Theorem resolve_unknown_type (d : list (pystr * json)) (hint : pystr) :
  match assoc (py "type") d with
  | Some json_type => hashable json_type = true /\ recognised json_type = false
  | None => True
  end ->
  _resolve_python_type (JDict d) hint
  = Returned (match assoc (py "type") d with Some _ => Any | None => Str end).
Proof.
  rewrite _resolve_python_type_eq.
  unfold DynamicModelBuilder.resolve_body, dict_get.
  destruct (assoc (py "type") d) as [json_type|]; [|reflexivity].
  intros [Hh Hr].
  destruct json_type as [| | | | s | |]; try reflexivity; try discriminate.
  simpl in Hr. rewrite !orb_false_r in Hr.
  repeat (apply orb_false_elim in Hr; destruct Hr as [? Hr]).
  unfold bind, eq_str, mapping_get, mapping, find, fst, snd.
  rewrite (pystr_eqb_sym (py "string") s), (pystr_eqb_sym (py "integer") s),
    (pystr_eqb_sym (py "number") s), (pystr_eqb_sym (py "boolean") s).
  now repeat match goal with H : pystr_eqb s _ = false |- _ =>
                               rewrite H; clear H end.
Qed.

(** ** Closed objects with required fields *)

Lemma mapping_get_base (json_type : json) (T : PyType) :
  mapping_get json_type = Returned T -> base_type T = true.
Proof.
  destruct json_type as [| | | | s | |]; simpl; try discriminate;
    intros [= <-]; try reflexivity.
  destruct (pystr_eqb (py "string") s);
    [|destruct (pystr_eqb (py "integer") s);
      [|destruct (pystr_eqb (py "number") s);
        [|destruct (pystr_eqb (py "boolean") s)]]]; reflexivity.
Qed.

Lemma eq_str_object_not_array (x : json) :
  eq_str x (py "object") = true -> eq_str x (py "array") = false.
Proof.
  destruct x as [| | | | s | |]; try discriminate. simpl. intro H.
  apply pystr_eqb_eq in H. now subst s.
Qed.

(** What a node resolves to follows the node under the strict contract. *)
Lemma resolve_within_strict (n : nat) :
  create_model_sound ->
  forall (field_info : json) (hint : pystr) (T : PyType),
    resolve_within n field_info hint = Returned T ->
    strict field_info T.
Proof.
  intro Hsound.
  induction n as [|n IH]; intros field_info hint T H; [discriminate|].
  simpl in H. unfold DynamicModelBuilder.resolve_body in H.
  destruct field_info as [| | | | | |d]; try discriminate H.
  unfold dict_get in H. cbn [bind] in H. fold (json_type_of d) in H.
  destruct (eq_str (json_type_of d) (py "array")) eqn:Harr.
  { destruct (assoc (py "items") d) as [items|] eqn:Hitems.
    - destruct (truthy items) eqn:Ht; cbn [negb] in H.
      + unbind H. injection H as <-.
        apply strict_array with items; eauto.
      + injection H as <-. apply strict_array_of_str; [assumption|].
        unfold absent_or_falsy. now rewrite Hitems.
    - cbn [truthy negb] in H. injection H as <-.
      apply strict_array_of_str; [assumption|].
      unfold absent_or_falsy. now rewrite Hitems. }
  destruct (eq_str (json_type_of d) (py "object")) eqn:Hobj.
  { destruct (assoc (py "properties") d) as [np|] eqn:Hnp.
    - destruct (truthy np) eqn:Ht; cbn [negb] in H.
      + unbind H. unbind H.
        destruct np as [| | | | | |props]; try discriminate Ha.
        injection Ha as <-.
        destruct (Hsound _ _ _ _ H) as [fields [-> Hincl]].
        apply strict_model with props; try assumption.
        * intros ->. discriminate Ht.
        * intros f Hf.
          destruct (@fields_declared (DynamicModelBuilder.resolve_within
                                        capitalize create_model n)
                      (fun n_name => hint ++ py "_" ++ capitalize n_name)
                      _ _ Ha0 f (Hincl f Hf))
            as [Hr [node [Hn [Hres _]]]].
          split; [exact Hr|]. exists node. split; [exact Hn|].
          apply (IH _ _ _ Hres).
      + injection H as <-. apply strict_open_map; [assumption|].
        unfold absent_or_falsy. now rewrite Hnp.
    - cbn [truthy negb] in H. injection H as <-.
      apply strict_open_map; [assumption|].
      unfold absent_or_falsy. now rewrite Hnp. }
  apply strict_base; try assumption. now apply mapping_get_base in H.
Qed.

(** C2, amended: when [build_model_from_schema] returns, the result is a
    model class of the given name that forbids undeclared properties
    ([extra = forbid]); each of its fields is a declared property of the
    schema, is required, and has a type that follows the node of this
    property under the strict contract, at every nesting depth: an object
    node that declares properties gives again a model class that forbids
    undeclared properties, with declared and required fields only, and an
    object node that declares none gives the open map [Dict[str, Any]].
    The [required] lists of the schema play no part. *)
Theorem build_model_strict (schema : json) (model_name : pystr)
        (T : PyType) :
  create_model_sound ->
  build_model_from_schema schema model_name = Returned T ->
  exists props fields,
    dict_get schema (py "properties") (JDict []) = Returned (JDict props)
    /\ T = Model model_name {| extra := forbid |} fields
    /\ forall f, In f fields ->
         required f = true
         /\ exists node, In (fst f, node) props /\ strict node (fst (snd f)).
Proof.
  intros Hsound H. unfold DynamicModelBuilder.build_model_from_schema in H.
  unbind H. unbind H. unbind H.
  destruct a as [| | | | | |props]; try discriminate Ha0.
  injection Ha0 as <-.
  destruct (Hsound _ _ _ _ H) as [fields [-> Hincl]].
  exists props, fields. split; [exact Ha|]. split; [reflexivity|].
  intros f Hf.
  destruct (@fields_declared _resolve_python_type capitalize _ _ Ha1 f
              (Hincl f Hf)) as [Hr [node [Hn [Hres _]]]].
  split; [exact Hr|]. exists node. split; [exact Hn|].
  apply (@resolve_within_strict _ Hsound _ _ _ Hres).
Qed.

(** *** What each kind of object node compiles to *)

Lemma resolve_object_without_properties (d : list (pystr * json))
      (hint : pystr) :
  assoc (py "type") d = Some (JStr (py "object")) ->
  match assoc (py "properties") d with
  | Some properties => truthy properties = false
  | None => True
  end ->
  _resolve_python_type (JDict d) hint = Returned (Dict_ Str Any).
Proof.
  intros Ht Hp. rewrite _resolve_python_type_eq.
  unfold DynamicModelBuilder.resolve_body, dict_get. rewrite Ht.
  destruct (assoc (py "properties") d) as [properties|]; simpl;
    [now rewrite Hp | reflexivity].
Qed.

(** X11: an object node with a non-empty [properties] dict compiles, when
    it compiles, to a model class named by the hint that forbids extra
    keys; each field of the class is required and comes from a declared
    property of the same name: its type is what this property's node
    resolves to under the hint [hint_Name], its description that of the
    node. *)
Lemma resolve_object_with_properties (d props : list (pystr * json))
      (hint : pystr) (T : PyType) :
  create_model_sound ->
  assoc (py "type") d = Some (JStr (py "object")) ->
  assoc (py "properties") d = Some (JDict props) -> props <> [] ->
  _resolve_python_type (JDict d) hint = Returned T ->
  exists fields,
    T = Model hint {| extra := forbid |} fields
    /\ forall f, In f fields ->
         required f = true
         /\ exists node,
              In (fst f, node) props
              /\ _resolve_python_type node
                   (hint ++ py "_" ++ capitalize (fst f))
                 = Returned (fst (snd f))
              /\ dict_get node (py "description") (JStr [])
                 = Returned (description (snd (snd f))).
Proof.
  intros Hsound Ht Hp Hne. rewrite _resolve_python_type_eq.
  unfold DynamicModelBuilder.resolve_body, dict_get. rewrite Ht, Hp. simpl.
  destruct props as [|p props]; [now elim Hne|]. cbn [truthy negb].
  intro H. unbind H.
  destruct (Hsound _ _ _ _ H) as [fields [-> Hincl]].
  exists fields. split; [reflexivity|]. intros f Hf.
  apply (@fields_declared _resolve_python_type
           (fun n_name => hint ++ py "_" ++ capitalize n_name)
           _ _ Ha f (Hincl f Hf)).
Qed.

(** *** The [required] list of the source is not read *)

(** X12: [_resolve_python_type] never reads the [required] list of a node:
    with or without this key the node compiles to the same type. *)
Lemma _resolve_python_type_ignores_required (d1 d2 : list (pystr * json))
      (r : json) (hint : pystr) :
  _resolve_python_type (JDict (d1 ++ (py "required", r) :: d2)) hint
  = _resolve_python_type (JDict (d1 ++ d2)) hint.
Proof.
  rewrite !_resolve_python_type_eq.
  unfold DynamicModelBuilder.resolve_body, dict_get.
  now rewrite !assoc_skip by discriminate.
Qed.

(** X13: [build_model_from_schema] never reads the [required] list of the
    schema: with or without this key it builds the same model. *)
Lemma build_model_ignores_required (d1 d2 : list (pystr * json)) (r : json)
      (model_name : pystr) :
  build_model_from_schema (JDict (d1 ++ (py "required", r) :: d2)) model_name
  = build_model_from_schema (JDict (d1 ++ d2)) model_name.
Proof.
  unfold DynamicModelBuilder.build_model_from_schema, dict_get.
  now rewrite assoc_skip by discriminate.
Qed.

(** ** Arrays without items *)

(** X14: an array node whose [items] is missing or empty compiles to
    [List[str]]; it never raises. *)
Theorem resolve_array_without_items (d : list (pystr * json))
        (hint : pystr) :
  assoc (py "type") d = Some (JStr (py "array")) ->
  absent_or_falsy (py "items") d ->
  _resolve_python_type (JDict d) hint = Returned (List_ Str).
Proof.
  intros Ht Hi. rewrite _resolve_python_type_eq.
  unfold DynamicModelBuilder.resolve_body, dict_get. rewrite Ht.
  unfold absent_or_falsy in Hi.
  destruct (assoc (py "items") d) as [items|]; simpl;
    [now rewrite Hi | reflexivity].
Qed.

(** ** Well-formed schemas compile *)

Section Accepted.
Variable accepted : pystr -> bool.

Local Abbreviation well_formed_field := (well_formed_field accepted).
Local Abbreviation well_formed_schema := (well_formed_schema accepted).

Lemma well_formed_field_dict (x : json) :
  well_formed_field x -> exists d, x = JDict d.
Proof. intros [ | | | | ]; eauto. Qed.

Lemma fields_names (rec : json -> pystr -> Outcome PyType)
      (hint : pystr -> pystr) (props : list (pystr * json)) :
  forall fields,
    for_each
      (fun p =>
         n_type <- rec (snd p) (hint (fst p)) ;;
         n_desc <- dict_get (snd p) (py "description") (JStr []) ;;
         Returned (fst p, (n_type, Field Ellipsis n_desc)))
      props = Returned fields ->
    List.map fst fields = List.map fst props.
Proof.
  intros fields H. apply for_each_returned in H.
  induction H as [|p f props fields Hf _ IH]; [reflexivity|].
  unbind Hf. unbind Hf. injection Hf as <-. simpl. now rewrite IH.
Qed.

(** The loop over well-formed properties, then [create_model]. *)
Lemma create_model_of_fields (rec : json -> pystr -> Outcome PyType)
      (hint : pystr -> pystr) (props : list (pystr * json))
      (name : pystr) :
  create_model_sound -> create_model_accepts accepted ->
  forallb accepted (List.map fst props) = true ->
  (forall k v, In (k, v) props ->
               well_formed_field v /\ exists T, rec v (hint k) = Returned T) ->
  exists fields,
    (nested_fields <-
       for_each
         (fun p =>
            n_type <- rec (snd p) (hint (fst p)) ;;
            n_desc <- dict_get (snd p) (py "description") (JStr []) ;;
            Returned (fst p, (n_type, Field Ellipsis n_desc)))
         props ;;
     create_model name {| extra := forbid |} nested_fields)
    = Returned (Model name {| extra := forbid |} fields).
Proof.
  intros Hsound Haccepts Hacc Hall.
  match goal with
  | |- context [for_each ?f ?l] =>
      destruct (@for_each_total _ _ f l) as [nested Hf]
  end.
  - intros [k v] Hq. cbn [fst snd].
    destruct (Hall k v Hq) as [Hwf [T HT]]. rewrite HT.
    destruct (well_formed_field_dict Hwf) as [d' ->]. simpl. eauto.
  - rewrite Hf. cbn [bind].
    destruct (Haccepts name {| extra := forbid |} nested) as [T HT].
    + now rewrite (@fields_names rec hint props nested Hf).
    + destruct (Hsound _ _ _ _ HT) as [fields [-> _]]. eauto.
Qed.

Lemma resolve_well_formed (n : nat) :
  create_model_sound -> create_model_accepts accepted ->
  forall field_info : json,
    json_depth field_info < n -> well_formed_field field_info ->
    forall hint, exists T, _resolve_python_type field_info hint = Returned T.
Proof.
  intros Hsound Haccepts.
  induction n as [|n IH]; intros field_info Hn Hwf hint; [lia|].
  rewrite _resolve_python_type_eq.
  destruct Hwf as [d Ha Ho Hh | d Ha Hi | d items Ha Hi Ht Hwf
                  | d Ho Hp | d props Ho Hp Hne Hacc Hall];
    unfold DynamicModelBuilder.resolve_body, dict_get;
    fold (json_type_of d); cbn [bind].
  - rewrite Ha, Ho. unfold mapping_get.
    destruct (json_type_of d); try discriminate; eauto.
  - rewrite Ha. unfold absent_or_falsy in Hi.
    destruct (assoc (py "items") d) as [items|]; simpl;
      [rewrite Hi|]; simpl; eauto.
  - rewrite Ha, Hi, Ht. simpl.
    destruct (IH items) with (hint := hint ++ py "Item") as [T HT];
      [|assumption|].
    + pose proof (json_depth_item _ _ _ (assoc_In _ _ Hi)). lia.
    + rewrite HT. simpl. eauto.
  - rewrite (eq_str_object_not_array _ Ho), Ho.
    unfold absent_or_falsy in Hp.
    destruct (assoc (py "properties") d) as [p|]; simpl;
      [rewrite Hp|]; simpl; eauto.
  - rewrite (eq_str_object_not_array _ Ho), Ho, Hp.
    destruct props as [|p props]; [now elim Hne|].
    cbn [truthy negb dict_items bind].
    destruct (@create_model_of_fields _resolve_python_type
                (fun n_name => hint ++ py "_" ++ capitalize n_name)
                (p :: props) hint Hsound Haccepts Hacc) as [fields Hf].
    + intros k v Hq. rewrite Forall_forall in Hall.
      pose proof (Hall _ Hq) as Hwf. cbn [snd] in Hwf.
      split; [exact Hwf|]. apply IH; [|exact Hwf].
      pose proof (json_depth_item _ _ _ (assoc_In _ _ Hp)) as H1.
      pose proof (@json_depth_item (p :: props) k v Hq) as H2. lia.
    + eauto.
Qed.


End Accepted.

End CompilerFacts.

(** ** The sample [create_model] meets the assumptions *)

Lemma sample_create_model_sound : create_model_sound sample_create_model.
Proof.
  intros name config fields T. unfold sample_create_model.
  destruct (forallb ascii_letters (List.map fst fields)); [|discriminate].
  intros [= <-]. eauto.
Qed.

Lemma sample_create_model_accepts :
  create_model_accepts sample_create_model ascii_letters.
Proof.
  intros name config fields H. unfold sample_create_model.
  rewrite H. eauto.
Qed.

(** ** Runs on small schemas *)

Example build_contract_model :
  build_model_from_schema ascii_capitalize sample_create_model
                          contract_schema (py "ContractModel")
  = Returned contract_model.
Proof. reflexivity. Qed.

(** A [type] given as a list of names cannot be looked up in [mapping]. *)
Example resolve_type_list_raises :
  _resolve_python_type ascii_capitalize sample_create_model
    (JDict [(py "type", JList [JStr (py "string"); JStr (py "null")])])
    (py "Title")
  = Raised (py "unhashable type: 'list'").
Proof. reflexivity. Qed.

Lemma build_model_strict_witness :
  exists props fields,
    dict_get contract_schema (py "properties") (JDict [])
    = Returned (JDict props)
    /\ contract_model = Model (py "ContractModel") {| extra := forbid |} fields
    /\ forall f, In f fields ->
         required f = true
         /\ exists node, In (fst f, node) props /\ strict node (fst (snd f)).
Proof.
  apply (@build_model_strict ascii_capitalize sample_create_model
           contract_schema (py "ContractModel") contract_model
           sample_create_model_sound).
  reflexivity.
Defined.

Lemma resolve_unknown_type_witness :
  _resolve_python_type ascii_capitalize sample_create_model
                       (JDict [(py "type", JStr (py "date"))]) (py "Signed")
  = Returned Any.
Proof.
  apply (@resolve_unknown_type ascii_capitalize sample_create_model
           [(py "type", JStr (py "date"))] (py "Signed")).
  now split.
Defined.

(** C2 fails as stated: the field [metadata] of [contract_schema], an
    object without properties, compiles to [Dict[str, Any]], which admits
    any property. *)
Lemma closed_objects_claim_refuted :
  ~ closed_objects_claim ascii_capitalize sample_create_model.
Proof.
  intro claim.
  destruct (claim contract_schema (py "ContractModel") contract_model
                  build_contract_model (Dict_ Str Any)) as [Hclosed _].
  - apply subnode_field
      with (f := (py "metadata", (Dict_ Str Any, Field Ellipsis (JStr [])))).
    + simpl. auto.
    + apply subnode_here.
  - reflexivity.
  - discriminate Hclosed.
Qed.

(** C3 fails as stated: the field node [{"description": "Notes"}], which
    has no [type], resolves to [str]. *)
Lemma unknown_type_claim_refuted :
  ~ unknown_type_claim ascii_capitalize sample_create_model.
Proof.
  intro claim.
  specialize (claim [(py "description", JStr (py "Notes"))] (py "Notes") I).
  discriminate claim.
Qed.

Lemma resolve_array_without_items_witness :
  _resolve_python_type ascii_capitalize sample_create_model
                       (JDict [(py "type", JStr (py "array"))]) (py "Tags")
  = Returned (List_ Str).
Proof.
  apply (@resolve_array_without_items ascii_capitalize sample_create_model
           [(py "type", JStr (py "array"))] (py "Tags"));
    [reflexivity | exact I].
Defined.

Lemma resolve_object_without_properties_witness :
  _resolve_python_type ascii_capitalize sample_create_model
                       (JDict [(py "type", JStr (py "object"))])
                       (py "Metadata")
  = Returned (Dict_ Str Any).
Proof.
  apply (@resolve_object_without_properties ascii_capitalize
           sample_create_model
           [(py "type", JStr (py "object"))] (py "Metadata"));
    [reflexivity | exact I].
Defined.

(** The node [party] of [contract_schema]. *)
Lemma resolve_object_with_properties_witness :
  exists fields,
    Model (py "Party") {| extra := forbid |}
      [(py "name", (Str, Field Ellipsis (JStr [])))]
    = Model (py "Party") {| extra := forbid |} fields
    /\ forall f, In f fields ->
         required f = true
         /\ exists node,
              In (fst f, node)
                 [(py "name", JDict [(py "type", JStr (py "string"))])]
              /\ _resolve_python_type ascii_capitalize sample_create_model
                   node (py "Party" ++ py "_" ++ ascii_capitalize (fst f))
                 = Returned (fst (snd f))
              /\ dict_get node (py "description") (JStr [])
                 = Returned (description (snd (snd f))).
Proof.
  apply (@resolve_object_with_properties ascii_capitalize
           sample_create_model
           [(py "type", JStr (py "object"));
            (py "required", JList []);
            (py "properties",
             JDict [(py "name", JDict [(py "type", JStr (py "string"))])])]
           [(py "name", JDict [(py "type", JStr (py "string"))])]
           (py "Party") _ sample_create_model_sound);
    [reflexivity | reflexivity | discriminate |].
  reflexivity.
Defined.


End DynamicModelBuilderFacts.

(** * Properties of the text extraction *)

Module TextExtractionFacts.

Import GenericDataExtractor TextExtraction.

(** ** Stripping and joining *)

Lemma lstrip_keeps (c : N) (s : pystr) :
  is_whitespace c = false -> In c s -> In c (lstrip s).
Proof.
  intros Hc. induction s as [|a s IH]; simpl; [tauto|].
  intros [->|H].
  - rewrite Hc. now left.
  - destruct (is_whitespace a); [auto | now right].
Qed.

Lemma py_strip_keeps (c : N) (s : pystr) :
  is_whitespace c = false -> In c s -> In c (py_strip s).
Proof.
  intros Hc H. unfold py_strip, rstrip.
  apply in_rev. rewrite rev_involutive.
  apply lstrip_keeps; [assumption|]. apply -> in_rev.
  now apply lstrip_keeps.
Qed.

Lemma str_join_cons (sep p : pystr) (rest : list pystr) :
  rest <> [] -> str_join sep (p :: rest) = p ++ sep ++ str_join sep rest.
Proof. destruct rest; [intro H; now elim H | reflexivity]. Qed.

Lemma str_join_In (sep : pystr) (c : N) (part : pystr)
      (parts : list pystr) :
  In part parts -> In c part -> In c (str_join sep parts).
Proof.
  induction parts as [|p rest IH]; [intros []|].
  intros [->|H] Hc.
  - destruct rest; [assumption|]. rewrite str_join_cons by discriminate.
    apply in_or_app. now left.
  - destruct rest as [|q rest]; [destruct H|].
    rewrite str_join_cons by discriminate.
    apply in_or_app. right. apply in_or_app. right. now apply IH.
Qed.

Lemma str_join_sep_In (sep : pystr) (c : N) (parts : list pystr) :
  2 <= length parts -> In c sep -> In c (str_join sep parts).
Proof.
  destruct parts as [|p [|q rest]]; simpl length; try lia.
  intros _ Hc. rewrite str_join_cons by discriminate.
  apply in_or_app. right. apply in_or_app. now left.
Qed.

(** ** Word documents *)

(** X16: a paragraph that is empty or made of whitespace only leaves no
    trace in the text of a Word document: the text is the same with or
    without it, wherever it stands. *)
Theorem docx_blank_paragraph_skipped (before after : list pystr)
        (blank : pystr) (tbls : list (list (list pystr))) :
  forallb is_whitespace blank = true ->
  _extract_from_docx
    {| paragraphs := before ++ blank :: after; tables := tbls |}
  = _extract_from_docx {| paragraphs := before ++ after; tables := tbls |}.
Proof.
  intro H. unfold _extract_from_docx. simpl.
  rewrite !filter_app. simpl.
  now rewrite (py_strip_whitespace blank H).
Qed.

Lemma docx_blank_paragraph_skipped_witness :
  _extract_from_docx
    {| paragraphs := [py "Title"] ++ [32; 9]%N :: [py "Body"];
       tables := [] |}
  = _extract_from_docx
      {| paragraphs := [py "Title"] ++ [py "Body"]; tables := [] |}.
Proof.
  apply (@docx_blank_paragraph_skipped [py "Title"] [py "Body"] [32; 9]%N []).
  reflexivity.
Defined.

(** X18: a table row of two or more cells makes the text of a Word
    document non-blank, even when every cell and every paragraph is empty:
    the separator " | " is always there. *)
Theorem docx_table_row_not_blank (doc : Document)
        (table : list (list pystr)) (row : list pystr) :
  In table (tables doc) -> In row table -> 2 <= length row ->
  py_strip (_extract_from_docx doc) <> [].
Proof.
  intros Ht Hr Hlen.
  assert (Hin : In 124%N (py_strip (_extract_from_docx doc))).
  { apply py_strip_keeps; [reflexivity|]. unfold _extract_from_docx.
    apply str_join_In
      with (part := str_join (py " | ") (List.map py_strip row)).
    - apply in_or_app. right. apply in_flat_map. exists table.
      split; [assumption|].
      apply (in_map (fun r => str_join (py " | ") (List.map py_strip r))
                    table row Hr).
    - apply str_join_sep_In; [now rewrite length_map|].
      simpl. tauto. }
  intro E. rewrite E in Hin. destruct Hin.
Qed.

Lemma docx_table_row_not_blank_witness :
  py_strip (_extract_from_docx
              {| paragraphs := []; tables := [[[[]; []]]] |}) <> [].
Proof.
  apply (@docx_table_row_not_blank
           {| paragraphs := []; tables := [[[[]; []]]] |}
           [[[]; []]] [[]; []]); simpl; auto.
Defined.

(** ** PDF documents *)

Section PdfFacts.
Variable fl : Q -> Q.
(** Rounding to the nearest float keeps the order and leaves the integers
    up to [2^53] as they are. *)
Hypothesis fl_monotone : forall a b : Q, (a <= b)%Q -> (fl a <= fl b)%Q.
Hypothesis fl_integer :
  forall z : Z, (Z.abs z <= 2 ^ 53)%Z -> (fl (inject_Z z) == inject_Z z)%Q.

Lemma Zpos_of_nat (n : nat) :
  0 < n -> Zpos (Pos.of_nat n) = Z.of_nat n.
Proof.
  intro H. rewrite <- positive_nat_Z. f_equal. apply Nat2Pos.id. lia.
Qed.

Lemma avg_chars_dense (total threshold : Z) (page_count : nat) :
  (Z.abs threshold <= 2 ^ 53)%Z -> 0 < page_count ->
  (threshold * Z.of_nat page_count <= total)%Z ->
  Qlt_bool (avg_chars fl total page_count) (inject_Z threshold) = false.
Proof.
  intros Hb Hc Hd. unfold Qlt_bool. apply negb_false_iff.
  apply Qle_bool_iff. destruct page_count as [|n]; [lia|].
  unfold avg_chars. rewrite <- (fl_integer threshold Hb).
  apply fl_monotone.
  unfold Qle. cbn [Qnum Qden inject_Z]. rewrite Zpos_of_nat; lia.
Qed.

Lemma avg_chars_sparse (total threshold : Z) (page_count : nat) :
  (Z.abs (threshold - 1) <= 2 ^ 53)%Z -> 0 < page_count ->
  (total <= (threshold - 1) * Z.of_nat page_count)%Z ->
  Qlt_bool (avg_chars fl total page_count) (inject_Z threshold) = true.
Proof.
  intros Hb Hc Hd. unfold Qlt_bool. apply negb_true_iff.
  destruct (Qle_bool (inject_Z threshold)
                     (avg_chars fl total page_count)) eqn:E;
    [|reflexivity].
  apply Qle_bool_iff in E. exfalso.
  destruct page_count as [|n]; [lia|]. unfold avg_chars in E.
  assert (H : (fl (Qmake total (Pos.of_nat (S n)))
               <= inject_Z (threshold - 1))%Q).
  { rewrite <- (fl_integer (threshold - 1)%Z Hb). apply fl_monotone.
    unfold Qle. cbn [Qnum Qden inject_Z]. rewrite Zpos_of_nat; lia. }
  pose proof (Qle_trans _ _ _ E H) as Hle.
  unfold Qle in Hle. cbn [Qnum Qden inject_Z] in Hle. lia.
Qed.

(** X20: when PyMuPDF and the OCR libraries are installed, a PDF whose
    pages hold on average at least [scan_density_threshold] characters
    (after stripping) comes back as its text layer, the page texts joined
    by newlines, whatever the OCR would give or raise. *)
Theorem pdf_dense_uses_text_layer (threshold : Z) (doc : list Page) :
  (Z.abs threshold <= 2 ^ 53)%Z -> doc <> [] ->
  (threshold * Z.of_nat (length doc)
   <= total_chars (List.map get_text doc))%Z ->
  _extract_from_pdf fl true true threshold (Returned doc)
  = Returned (str_join [10%N] (List.map get_text doc)).
Proof.
  intros Hb Hne Hd. unfold _extract_from_pdf. simpl.
  rewrite avg_chars_dense; [reflexivity | assumption | | assumption].
  destruct doc; [now elim Hne | simpl; lia].
Qed.

Lemma pdf_sparse_route (threshold : Z) (doc : list Page) :
  (Z.abs (threshold - 1) <= 2 ^ 53)%Z -> (0 < threshold)%Z ->
  (total_chars (List.map get_text doc)
   <= (threshold - 1) * Z.of_nat (length doc))%Z ->
  _extract_from_pdf fl true true threshold (Returned doc)
  = _extract_scanned_pdf true true doc.
Proof.
  intros Hb Hpos Hd. unfold _extract_from_pdf. simpl.
  destruct doc as [|pg doc].
  - simpl. unfold Qlt_bool, Qle_bool. simpl.
    destruct (Z.leb_spec (threshold * 1) 0); [lia | reflexivity].
  - rewrite avg_chars_sparse;
      [reflexivity | assumption | simpl; lia | assumption].
Qed.

(** X21: when PyMuPDF and the OCR libraries are installed, a PDF whose
    pages hold on average at most [scan_density_threshold - 1] characters,
    or that has no page while the threshold is positive, is treated as
    scanned: the text layer is dropped and the result is that of the OCR,
    the recognised page texts joined by blank lines or the first OCR
    failure. *)
Theorem pdf_sparse_uses_ocr (threshold : Z) (doc : list Page) :
  (Z.abs (threshold - 1) <= 2 ^ 53)%Z -> (0 < threshold)%Z ->
  (total_chars (List.map get_text doc)
   <= (threshold - 1) * Z.of_nat (length doc))%Z ->
  _extract_from_pdf fl true true threshold (Returned doc)
  = DynamicModelBuilder.bind
      (DynamicModelBuilder.for_each image_to_string doc)
      (fun ocr_parts => Returned (str_join [10%N; 10%N] ocr_parts)).
Proof.
  intros Hb Hpos Hd. now rewrite (pdf_sparse_route doc Hb Hpos Hd).
Qed.

End PdfFacts.

(** ** From the file to the result *)

Lemma docx_all_blank (doc : Document) :
  forallb (forallb is_whitespace) (paragraphs doc) = true ->
  tables doc = [] ->
  _extract_from_docx doc = [].
Proof.
  intros Hp Ht. unfold _extract_from_docx. rewrite Ht. simpl.
  rewrite app_nil_r.
  induction (paragraphs doc) as [|p ps IH]; [reflexivity|].
  simpl in Hp. apply andb_true_iff in Hp. destruct Hp as [Hb Hps].
  simpl. rewrite (py_strip_whitespace p Hb). simpl. now apply IH.
Qed.

Section Pipeline.
Variable token : Type.
Variable encode : pystr -> list token.
Variable decode : list token -> pystr.
Variables max_tokens token_overlap : Z.
Variable json_dumps : json -> pystr.
Variable client : nat -> pystr -> pystr -> Response.
Variable fl : Q -> Q.

Local Abbreviation process_file :=
  (GenericDataExtractor.process_file encode decode max_tokens token_overlap
     json_dumps client).

(** X17: a Word document with no table and only blank paragraphs ends in
    status "failed" with the message "No text content found", without any
    model call. *)
Theorem process_file_blank_docx (fuel : nat) (fitz ocr : bool)
        (threshold : Z) (file : File) (doc : Document) :
  suffix file = py ".docx" ->
  as_docx file = Returned doc ->
  forallb (forallb is_whitespace) (paragraphs doc) = true ->
  tables doc = [] ->
  process_file fuel (extract_text fl fitz ocr threshold file)
  = Some ({| status := py "failed"; data := None;
             message := py "No text content found" |}, []).
Proof.
  intros Hs Hd Hp Ht. unfold extract_text. rewrite Hs, Hd. simpl.
  now rewrite (docx_all_blank doc Hp Ht).
Qed.

(** X19: a file whose suffix is none of ".docx", ".pdf" and ".txt" ends in
    status "failed" with the message "Unsupported format: " followed by
    the suffix, without any model call and whatever the file holds. *)
Theorem process_file_unsupported_format (fuel : nat) (fitz ocr : bool)
        (threshold : Z) (file : File) :
  suffix file <> py ".docx" -> suffix file <> py ".pdf" ->
  suffix file <> py ".txt" ->
  process_file fuel (extract_text fl fitz ocr threshold file)
  = Some ({| status := py "failed"; data := None;
             message := py "Unsupported format: " ++ suffix file |}, []).
Proof.
  intros H1 H2 H3. unfold extract_text.
  apply pystr_eqb_neq in H1, H2, H3. now rewrite H1, H2, H3.
Qed.

(** X22: the optional imports stand or fall together: when PyMuPDF or
    one of the OCR libraries is not installed - also when PyMuPDF itself
    is - every PDF, with or without a text layer, ends in status "failed"
    with the message "PyMuPDF (fitz) is not installed.", without any model
    call. *)
Theorem process_file_pdf_without_libraries (fuel : nat) (fitz ocr : bool)
        (threshold : Z) (file : File) :
  suffix file = py ".pdf" ->
  fitz && ocr = false ->
  process_file fuel (extract_text fl fitz ocr threshold file)
  = Some ({| status := py "failed"; data := None;
             message := py "PyMuPDF (fitz) is not installed." |}, []).
Proof.
  intros Hs Hmissing. unfold extract_text. rewrite Hs.
  change (pystr_eqb (py ".pdf") (py ".docx")) with false.
  rewrite pystr_eqb_refl.
  unfold _extract_from_pdf, TextExtraction.fitz, imported.
  now rewrite Hmissing.
Qed.

End Pipeline.

(** ** Runs *)

(** Exact arithmetic, which rounds nothing. *)
Lemma exact_monotone (a b : Q) : (a <= b)%Q -> (a <= b)%Q.
Proof. exact (fun H => H). Qed.

Lemma exact_integer (z : Z) :
  (Z.abs z <= 2 ^ 53)%Z -> (inject_Z z == inject_Z z)%Q.
Proof. intros _. apply Qeq_refl. Qed.

Lemma pdf_dense_uses_text_layer_witness :
  _extract_from_pdf (fun q => q) true true 2 (Returned two_pages)
  = Returned (str_join [10%N] (List.map get_text two_pages)).
Proof.
  apply (@pdf_dense_uses_text_layer (fun q => q) exact_monotone
           exact_integer 2 two_pages).
  - vm_compute. discriminate.
  - discriminate.
  - vm_compute. discriminate.
Defined.

Lemma pdf_sparse_uses_ocr_witness :
  _extract_from_pdf (fun q => q) true true 100 (Returned two_pages)
  = Returned (py "scan 1" ++ [10; 10]%N ++ py "scan 2").
Proof.
  apply (@pdf_sparse_uses_ocr (fun q => q) exact_monotone exact_integer
           100 two_pages).
  - vm_compute. discriminate.
  - reflexivity.
  - vm_compute. discriminate.
Defined.

Lemma process_file_blank_docx_witness :
  GenericDataExtractor.process_file char_encode char_decode 3 1 no_dumps
    title_always 0
    (extract_text (fun q => q) true true 100
       (file_of (py ".docx") blank_document two_pages))
  = Some ({| status := py "failed"; data := None;
             message := py "No text content found" |}, []).
Proof.
  apply (@process_file_blank_docx N char_encode char_decode 3 1 no_dumps
           title_always (fun q => q) 0 true true 100
           (file_of (py ".docx") blank_document two_pages) blank_document);
    reflexivity.
Defined.

Lemma process_file_unsupported_format_witness :
  GenericDataExtractor.process_file char_encode char_decode 3 1 no_dumps
    title_always 0
    (extract_text (fun q => q) true true 100
       (file_of (py ".md") blank_document two_pages))
  = Some ({| status := py "failed"; data := None;
             message := py "Unsupported format: .md" |}, []).
Proof.
  apply (@process_file_unsupported_format N char_encode char_decode 3 1
           no_dumps title_always (fun q => q) 0 true true 100
           (file_of (py ".md") blank_document two_pages)); discriminate.
Defined.

(** PyMuPDF is installed, the OCR libraries are not. *)
Lemma process_file_pdf_without_libraries_witness :
  GenericDataExtractor.process_file char_encode char_decode 3 1 no_dumps
    title_always 0
    (extract_text (fun q => q) true false 2
       (file_of (py ".pdf") blank_document two_pages))
  = Some ({| status := py "failed"; data := None;
             message := py "PyMuPDF (fitz) is not installed." |}, []).
Proof.
  apply (@process_file_pdf_without_libraries N char_encode char_decode 3 1
           no_dumps title_always (fun q => q) 0 true false 2
           (file_of (py ".pdf") blank_document two_pages)); reflexivity.
Defined.

End TextExtractionFacts.

(** * Properties of the tracker *)

Module MainFacts.

Import GenericDataExtractor Main.

(** X29: the checksum is the low 32 bits of what [zlib.crc32] returns: a
    number from 0 to [2^32 - 1], equal to the CRC when that is already in
    this range. *)
Theorem calculate_crc32_range (crc : Z) :
  (0 <= calculate_crc32 crc < 2 ^ 32)%Z
  /\ calculate_crc32 crc = (crc mod 2 ^ 32)%Z
  /\ ((0 <= crc < 2 ^ 32)%Z -> calculate_crc32 crc = crc).
Proof.
  assert (E : calculate_crc32 crc = (crc mod 2 ^ 32)%Z).
  { unfold calculate_crc32. change 4294967295%Z with (Z.ones 32).
    apply Z.land_ones. lia. }
  rewrite E. split; [apply Z.mod_pos_bound; lia|]. split; [reflexivity|].
  intro H. now apply Z.mod_small.
Qed.

Section TrackerFacts.
Variable DB_SCHEMA : pystr.
Variable json_dumps : json -> pystr.

Local Abbreviation param_of := (Main.param_of json_dumps).
Local Abbreviation tracker_loop := (Main.tracker_loop json_dumps).
Local Abbreviation update_tracker :=
  (Main.update_tracker DB_SCHEMA json_dumps).

(** What is stored for a keyword argument. *)
Local Abbreviation stored :=
  (fun kv : pystr * json => param_of (truncate_message (fst kv) (snd kv))).

Lemma tracker_loop_spec (kwargs : list (pystr * json)) :
  forall (update_fields : list pystr) (params : list SqlParam) (idx : nat),
    tracker_loop kwargs update_fields params idx
    = (update_fields ++ numbered idx (kept_kwargs kwargs),
       params ++ List.map stored (kept_kwargs kwargs),
       idx + length (kept_kwargs kwargs)).
Proof.
  induction kwargs as [|[key value] kwargs IH]; intros fields params idx.
  - simpl. now rewrite !app_nil_r, Nat.add_0_r.
  - assert (Hkeep : value <> JNull ->
              Main.tracker_loop json_dumps ((key, value) :: kwargs)
                                fields params idx
              = (fields
                   ++ numbered idx (kept_kwargs ((key, value) :: kwargs)),
                 params
                   ++ List.map stored (kept_kwargs ((key, value) :: kwargs)),
                 idx + length (kept_kwargs ((key, value) :: kwargs)))).
    { intro Hv.
      assert (Hk : kept_kwargs ((key, value) :: kwargs)
                   = (key, value) :: kept_kwargs kwargs).
      { unfold kept_kwargs. cbn [filter not_none snd].
        destruct value; [now elim Hv | reflexivity ..]. }
      rewrite Hk. cbn [numbered List.map length fst snd].
      transitivity
        (Main.tracker_loop json_dumps kwargs
           (fields ++ [key ++ py " = $" ++ str_of_nat idx])
           (params ++ [param_of (truncate_message key value)]) (S idx)).
      - destruct value; [now elim Hv | reflexivity ..].
      - rewrite IH, <- !app_assoc. cbn [app]. f_equal. lia. }
    destruct value; try (apply Hkeep; discriminate).
    cbn [Main.tracker_loop]. rewrite IH. reflexivity.
Qed.

Lemma numbered_length (idx : nat) (l : list (pystr * json)) :
  length (numbered idx l) = length l.
Proof.
  revert idx. induction l as [|kv l IH]; intro idx; simpl; [reflexivity|].
  now rewrite IH.
Qed.

Lemma numbered_nth (l : list (pystr * json)) :
  forall (idx i : nat) (d : pystr * json),
    i < length l ->
    nth i (numbered idx l) []
    = fst (nth i l d) ++ py " = $" ++ str_of_nat (idx + i).
Proof.
  induction l as [|kv l IH]; intros idx i d Hi; simpl in Hi; [lia|].
  destruct i as [|i].
  - cbn [numbered nth]. now rewrite Nat.add_0_r.
  - cbn [numbered nth]. rewrite (IH (S idx) i d) by lia.
    now replace (S idx + i) with (idx + S i) by lia.
Qed.

(** X23: the statement [update_tracker] executes lines up: after
    [status = $1] and [updated_at = $2], the [i]-th keyword argument that
    is not [None] is assigned placeholder [$(3+i)] and its stored value is
    the parameter at that position; the request id is the last parameter
    and the [WHERE] clause names its position, the number of
    parameters. *)
Theorem update_tracker_lined_up (request_id status : pystr)
        (kwargs : list (pystr * json)) :
  let kept := kept_kwargs kwargs in
  exists (update_fields : list pystr) (params : list SqlParam),
    update_tracker true request_id status kwargs
    = Some (py "UPDATE " ++ DB_SCHEMA ++ py ".extraction_tracker SET "
               ++ TextExtraction.str_join (py ", ") update_fields
               ++ py " WHERE request_id = $" ++ str_of_nat (length params),
            params)
    /\ length update_fields = 2 + length kept
    /\ length params = 3 + length kept
    /\ firstn 2 update_fields = [py "status = $1"; py "updated_at = $2"]
    /\ firstn 2 params = [PValue (JStr status); PNow]
    /\ (forall i d, i < length kept ->
          nth (2 + i) update_fields []
          = fst (nth i kept d) ++ py " = $" ++ str_of_nat (3 + i)
          /\ nth (2 + i) params PNow = stored (nth i kept d))
    /\ nth (2 + length kept) params PNow = PValue (JStr request_id).
Proof.
  intro kept. unfold Main.update_tracker. cbn [negb].
  rewrite tracker_loop_spec. fold kept.
  exists ([py "status = $1"; py "updated_at = $2"] ++ numbered 3 kept),
    (([PValue (JStr status); PNow] ++ List.map stored kept)
       ++ [PValue (JStr request_id)]).
  split.
  - assert (Hlen : length (([PValue (JStr status); PNow]
                              ++ List.map stored kept)
                             ++ [PValue (JStr request_id)])
                   = 3 + length kept).
    { rewrite !length_app, length_map. cbn [length]. lia. }
    rewrite Hlen. reflexivity.
  - split; [cbn [app length]; now rewrite numbered_length|].
    split; [rewrite !length_app, length_map; cbn [length]; lia|].
    split; [reflexivity|]. split; [reflexivity|]. split.
    + intros i d Hi. split.
      * cbn [app nth Nat.add]. apply numbered_nth. exact Hi.
      * cbn [app nth Nat.add]. rewrite app_nth1 by now rewrite length_map.
        rewrite nth_indep with (d' := stored d) by now rewrite length_map.
        apply (map_nth stored).
    + cbn [app nth Nat.add]. rewrite app_nth2; rewrite length_map; [|lia].
      now rewrite Nat.sub_diag.
Qed.

Lemma stored_message (text : pystr) :
  param_of (truncate_message (py "message") (JStr text))
  = PValue (JStr (if (2000 <? length text)%nat
                  then firstn 1997 text ++ py "..."
                  else text)).
Proof.
  unfold truncate_message. rewrite pystr_eqb_refl. cbn [andb].
  now destruct (2000 <? length text)%nat.
Qed.

(** X25: a keyword argument whose value is [None] changes nothing: the
    statement is the same with or without it, so it never overwrites a
    column. *)
Theorem update_tracker_skips_none (db_client : bool)
        (request_id status key : pystr)
        (before after : list (pystr * json)) :
  update_tracker db_client request_id status
                 (before ++ (key, JNull) :: after)
  = update_tracker db_client request_id status (before ++ after).
Proof.
  unfold Main.update_tracker. destruct db_client; [|reflexivity].
  cbn [negb]. rewrite !tracker_loop_spec.
  unfold kept_kwargs. now rewrite !filter_app.
Qed.

(** X24: a message of more than 2000 characters is stored as its first
    1997 characters followed by "...", 2000 characters in all; a shorter
    one is stored as it is. *)
Theorem update_tracker_message_cap (request_id status text : pystr) :
  exists stored_text,
    update_tracker true request_id status [(py "message", JStr text)]
    = Some (py "UPDATE " ++ DB_SCHEMA ++ py ".extraction_tracker SET "
               ++ py "status = $1, updated_at = $2, message = $3"
               ++ py " WHERE request_id = $4",
            [PValue (JStr status); PNow; PValue (JStr stored_text);
             PValue (JStr request_id)])
    /\ length stored_text = Nat.min (length text) 2000
    /\ (length text <= 2000 -> stored_text = text)
    /\ (2000 < length text -> stored_text = firstn 1997 text ++ py "...").
Proof.
  unfold Main.update_tracker, Main.tracker_loop, truncate_message.
  cbn [negb]. rewrite pystr_eqb_refl. cbn [andb].
  destruct (Nat.ltb_spec 2000 (length text)) as [Hlong|Hshort].
  - exists (firstn 1997 text ++ py "..."). split; [reflexivity|].
    split; [|split; [lia | reflexivity]].
    rewrite length_app, length_firstn.
    change (length (py "...")) with 3. lia.
  - exists text. split; [reflexivity|]. split; [lia|].
    split; [reflexivity | lia].
Qed.

(** X26: when the extractor is set, [process_background] updates the
    tracker twice: first to "inprogress", then to a final status that is
    "success" exactly when [process_file] returned a result with status
    "success", and "failed" otherwise - also when it raised. *)
Theorem process_background_terminal (result : Outcome Result) :
  exists final,
    process_background true result
    = [(STATUS_INPROGRESS, [(py "message", JStr (py "Processing document"))]);
       final]
    /\ (fst final = STATUS_SUCCESS \/ fst final = STATUS_FAILED)
    /\ (fst final = STATUS_SUCCESS
        <-> exists res, result = Returned res /\ status res = py "success").
Proof.
  unfold process_background. cbn [negb].
  destruct result as [res|e].
  - destruct (pystr_eqb (status res) (py "success")) eqn:E;
      eexists; (split; [reflexivity|]); cbn [fst].
    + apply pystr_eqb_eq in E. split; [now left|]. split; eauto.
    + apply pystr_eqb_neq in E. split; [now right|]. split.
      * discriminate.
      * intros [res' [[= <-] H]]. now elim E.
  - eexists. split; [reflexivity|]. cbn [fst]. split; [now right|].
    split; [discriminate|]. intros [res [H _]]. discriminate H.
Qed.

(** X27: after a failed [process_file], the final statement sets status,
    time, message and errors, and sets [extracted_data] - to the
    serialized data - only when the result carries data; the errors hold
    the whole message, the message column its capped form. *)
Theorem process_background_failure_statement (request_id : pystr)
        (res : Result) :
  status res <> py "success" ->
  let final := nth 1 (process_background true (Returned res)) ([], []) in
  let update := update_tracker true request_id (fst final) (snd final) in
  let errors :=
    PValue (JStr (json_dumps (JDict [(py "error", JStr (message res))]))) in
  let msg :=
    PValue (JStr (if (2000 <? length (message res))%nat
                  then firstn 1997 (message res) ++ py "..."
                  else message res)) in
  match get_data res with
  | JNull =>
      update
      = Some (py "UPDATE " ++ DB_SCHEMA ++ py ".extraction_tracker SET "
                 ++ py "status = $1, updated_at = $2, message = $3, errors = $4"
                 ++ py " WHERE request_id = $5",
              [PValue (JStr (py "failed")); PNow; msg; errors;
               PValue (JStr request_id)])
  | extracted =>
      update
      = Some (py "UPDATE " ++ DB_SCHEMA ++ py ".extraction_tracker SET "
                 ++ py "status = $1, updated_at = $2, extracted_data = $3, message = $4, errors = $5"
                 ++ py " WHERE request_id = $6",
              [PValue (JStr (py "failed")); PNow; param_of extracted; msg;
               errors; PValue (JStr request_id)])
  end.
Proof.
  intros Hs final update errors msg.
  unfold update, final, msg, process_background, get_data. cbn [negb].
  apply pystr_eqb_neq in Hs. rewrite Hs. cbn [nth fst snd].
  rewrite <- (stored_message (message res)).
  destruct (data res) as [[]|]; reflexivity.
Qed.

End TrackerFacts.

Lemma process_background_failure_statement_witness :
  Main.update_tracker (py "public") no_dumps true (py "r1") (py "failed")
    [(py "extracted_data", JNull);
     (py "message", JStr (py "No text content found"));
     (py "errors", JDict [(py "error", JStr (py "No text content found"))])]
  = Some (py "UPDATE public.extraction_tracker SET status = $1, updated_at = $2, message = $3, errors = $4 WHERE request_id = $5",
          [PValue (JStr (py "failed")); PNow;
           PValue (JStr (py "No text content found"));
           PValue (JStr []); PValue (JStr (py "r1"))]).
Proof.
  exact (@process_background_failure_statement (py "public") no_dumps
           (py "r1")
           {| status := py "failed"; data := None;
              message := py "No text content found" |}
           ltac:(discriminate)).
Defined.

(** ** The upload endpoint *)

Section UploadFacts.
Variable DB_SCHEMA APPLICATION_ID S3_BUCKET_NAME S3_KEY_PREFIX : pystr.
Variable zlib_crc32 : list N -> Z.
Variable json_dumps : json -> pystr.
Variable py_str : json -> pystr.
Variable http_exception_str : nat -> pystr -> pystr.
Variable path_suffix : pystr -> pystr.
Variable path_join : pystr -> pystr -> pystr.
Variable uuid4 : pystr.
Variable execute_query :
  pystr -> list json -> Outcome (list (list (pystr * json))).
Variable write_file : pystr -> list N -> Outcome unit.
Variable put_object : pystr -> pystr -> list N -> Outcome unit.

Local Abbreviation extract_data :=
  (Main.extract_data DB_SCHEMA APPLICATION_ID S3_BUCKET_NAME S3_KEY_PREFIX
                     zlib_crc32 json_dumps py_str http_exception_str
                     path_suffix path_join uuid4 execute_query write_file
                     put_object).

(** Every path through [extract_data], one goal each. *)
Ltac upload_paths :=
  unfold Main.extract_data, extract_try, check_duplicates, and_then, call,
    getitem, first_row, done, raise;
  repeat (match goal with
          | |- context [match ?x with _ => _ end] =>
              lazymatch x with
              | context [match _ with _ => _ end] => fail
              | _ => destruct x eqn:?
              end
          end; cbn beta iota; cbn [fst snd]).

(** X28: [extract_data] raises nothing but an [HTTPException] of status
    500, and answers with status 200 or 202 otherwise; the status 400 of an
    empty upload is raised inside the [try], so the client receives 500
    with the text of that exception as detail. *)
Theorem extract_data_raises_only_500 (db_client s3_client : bool)
        (content : list N) (filename : pystr) :
  match fst (extract_data db_client s3_client content filename) with
  | Raises status_code _ => status_code = 500
  | JSONResponse _ status_code => status_code = 200 \/ status_code = 202
  | Dict _ => True
  end
  /\ extract_data db_client s3_client [] filename
     = (Raises 500 (http_exception_str 400 (py "Empty file")), []).
Proof.
  split; [|reflexivity].
  upload_paths; cbn [fst]; auto.
Qed.

(** X30: [extract_data] schedules the background task exactly when it
    answers "initiated"; the task is given the request id of the answer
    and the path of the temporary file, written before, and it is the last
    thing done. A duplicate is answered after queries only: nothing is
    written, stored or scheduled. *)
Theorem extract_data_schedules (db_client s3_client : bool)
        (content : list N) (filename : pystr) :
  let reply := fst (extract_data db_client s3_client content filename) in
  let log := snd (extract_data db_client s3_client content filename) in
  let file_path := path_join TEMP_FOLDER (uuid4 ++ path_suffix filename) in
  ((exists body, reply = Dict body)
   <-> (exists request_id path, In (AddTask request_id path) log))
  /\ (forall request_id path,
        In (AddTask request_id path) log ->
        path = file_path
        /\ (exists before between,
              log = before ++ WriteFile file_path content
                           :: between ++ [AddTask request_id file_path])
        /\ reply
           = Dict (JDict [(py "request_id", JStr request_id);
                          (py "message",
                           JStr (py "Upload successful, processing started."));
                          (py "status", JStr (py "initiated"))]))
  /\ (forall response status_code,
        reply = JSONResponse response status_code ->
        forall effect, In effect log ->
                       exists query params, effect = Query query params).
Proof.
  cbv zeta.
  upload_paths; cbn [fst snd app In];
    (split; [split|split]);
    try (intros [body H]; discriminate H);
    try (intros [request_id [path H]]; intuition discriminate);
    try (intros _; eauto; do 2 eexists;
         repeat (first [left; reflexivity | right]));
    try (intros request_id path H; intuition (try discriminate);
         match goal with
         | H : AddTask _ _ = AddTask _ _ |- _ => injection H as <- <-
         end;
         repeat split;
         first [ exists [], []; reflexivity
               | eexists [], [_]; reflexivity
               | eexists [], [_; _]; reflexivity
               | eexists [_], []; reflexivity
               | eexists [_], [_]; reflexivity
               | eexists [_], [_; _]; reflexivity ]);
    try (intros response status_code H; try discriminate H;
         intros effect He; intuition (subst; eauto)).
Qed.

End UploadFacts.

(** Runs of the endpoint: a first upload without database and S3, and a
    duplicate of a successful request. *)

Example extract_data_first_upload :
  Main.extract_data (py "public") (py "app") (py "bucket") (py "uploads/")
    (fun _ => (-1)%Z) no_dumps (fun _ => py "7") (fun _ detail => detail)
    (fun _ => py ".txt") (fun a b => a ++ py "/" ++ b) (py "id")
    (fun _ _ => Raised (py "down")) (fun _ _ => Returned tt)
    (fun _ _ _ => Returned tt) false false [104%N; 105%N] (py "a.txt")
  = (Dict (JDict [(py "request_id", JStr (py "id"));
                  (py "message",
                   JStr (py "Upload successful, processing started."));
                  (py "status", JStr (py "initiated"))]),
     [WriteFile (py "temp_uploads/id.txt") [104%N; 105%N];
      AddTask (py "id") (py "temp_uploads/id.txt")]).
Proof. reflexivity. Qed.

Example extract_data_duplicate :
  Main.extract_data (py "public") (py "app") (py "bucket") (py "uploads/")
    (fun _ => 7%Z) no_dumps (fun _ => py "7") (fun _ detail => detail)
    (fun _ => py ".txt") (fun a b => a ++ py "/" ++ b) (py "id")
    (fun _ _ => Returned [[(py "request_id", JInt 7);
                           (py "status", JStr (py "success"));
                           (py "metadata", JNull)]])
    (fun _ _ => Returned tt) (fun _ _ _ => Returned tt)
    true true [104%N; 105%N] (py "a.txt")
  = (JSONResponse
       (JDict [(py "request_id", JStr (py "7"));
               (py "message", JStr (py "Duplicate successful request found."));
               (py "status", JStr (py "success"));
               (py "data", JNull)])
       200,
     [Query (Main.check_query (py "public"))
            [JStr (py "app"); JStr (py "7"); JStr (py "a.txt")]]).
Proof. reflexivity. Qed.

End MainFacts.
